(** * HVAC middleware service: a shallow embedding of [middleware_service.py]

    The service keeps five per-room dictionaries (latest temperature,
    commanded HVAC state, invalid-reading counter, sensor-error flag,
    API-error flag), fills them from MQTT messages ([on_message]), talks to
    the legacy REST backend with bounded retries ([poll_hvac_status],
    [send_hvac_command]) and runs a periodic decision loop ([run]).

    Modelling choices.
    - Python [float] is IEEE-754 binary64: the primitive [float] of Rocq.
    - Python [int] counters are unbounded: [Z].
    - A [dict] keeps insertion order and [run] iterates over
      [temps.items()], so dictionaries are association lists with Python's
      update rule (an existing key keeps its place, a new key goes last).
    - [hvac_active] holds [True], [False] or [None]: [option bool].
    - The builtin [float(msg.payload.decode())] is library code; it is a
      parameter [py_float] that returns [None] where Python raises
      [ValueError] ([UnicodeDecodeError] is a [ValueError]).
    - The backend is outside the program: every HTTP attempt reads its
      outcome from an oracle indexed by the number of attempts made so far,
      and each attempt is appended to a request log.
    - Logging, printing and [time.sleep] have no effect on the dictionaries
      and are left out.  The MQTT thread and the control loop are modelled
      as atomic steps ([on_message], one loop pass). *)

From Stdlib Require Import PrimFloat.
From Stdlib Require Import ZArith List String Ascii Bool Lia.
From Stdlib Require Uint63.
Import ListNotations.

Local Open Scope string_scope.
Local Open Scope Z_scope.

#[local] Set Default Proof Using "Type".

(** ** Python dictionaries with string keys *)

Module PyDict.

Section Dict.
Context {V : Type}.

Definition dict := list (string * V).

(** [d[k]]; [None] stands for [KeyError]. *)
Fixpoint get (k : string) (d : dict) : option V :=
  match d with
  | [] => None
  | (k', v) :: d' => if String.eqb k k' then Some v else get k d'
  end.

(** [k in d] *)
Definition mem (k : string) (d : dict) : bool :=
  match get k d with Some _ => true | None => false end.

(** [d[k] = v] *)
Fixpoint set (k : string) (v : V) (d : dict) : dict :=
  match d with
  | [] => [(k, v)]
  | (k', v') :: d' =>
      if String.eqb k k' then (k', v) :: d' else (k', v') :: set k v d'
  end.

Definition keys (d : dict) : list string := map fst d.

(** [{k: v for k in ks}]: the keys are inserted from left to right. *)
Definition from_keys (ks : list string) (v : V) : dict :=
  fold_left (fun d k => set k v d) ks [].

End Dict.

Arguments dict V : clear implicits.

End PyDict.

Import PyDict.

(** ** [str.split] on a one-character separator *)

Fixpoint split_on (sep : ascii) (s : string) : list string :=
  match s with
  | EmptyString => [EmptyString]
  | String c rest =>
      if Ascii.eqb c sep then EmptyString :: split_on sep rest
      else match split_on sep rest with
           | h :: t => String c h :: t
           | [] => [String c EmptyString]
           end
  end.

(** ** Module constants *)

Definition ROOMS : list string := ["room1"; "room2"; "room3"; "room4"; "room5"].

Definition API_Rerty_Limit : nat := 3.

Definition Invalid_Data_Limit : Z := 3.


(** ** Service state *)

Inductive request : Type :=
| GET_status (room : string)
| POST_command (room : string) (command : string).

(** Outcome of one [requests.get] / [requests.post] attempt, up to what the
    service looks at: a good answer (for a status read, the value of the
    body's "status" key when it is a string), a [requests.RequestException],
    or any other exception. *)
Inductive response : Type :=
| Ok (status : option string)
| RequestException
| OtherException.

Record state : Type := mkState {
  temperatures : dict float;
  hvac_active : dict (option bool);
  invalid_counts : dict Z;
  sensor_error : dict bool;
  api_error : dict bool;
  http_log : list request
}.

(** [MiddlewareService.__init__] *)
Definition init : state :=
  {| temperatures := from_keys ROOMS 0%float;
     hvac_active := from_keys ROOMS None;
     invalid_counts := from_keys ROOMS 0;
     sensor_error := from_keys ROOMS false;
     api_error := from_keys ROOMS false;
     http_log := [] |}.

Definition set_temperature r v s :=
  {| temperatures := set r v (temperatures s); hvac_active := hvac_active s;
     invalid_counts := invalid_counts s; sensor_error := sensor_error s;
     api_error := api_error s; http_log := http_log s |}.

Definition set_hvac_active r v s :=
  {| temperatures := temperatures s; hvac_active := set r v (hvac_active s);
     invalid_counts := invalid_counts s; sensor_error := sensor_error s;
     api_error := api_error s; http_log := http_log s |}.

Definition set_invalid_count r v s :=
  {| temperatures := temperatures s; hvac_active := hvac_active s;
     invalid_counts := set r v (invalid_counts s); sensor_error := sensor_error s;
     api_error := api_error s; http_log := http_log s |}.

Definition set_sensor_error r v s :=
  {| temperatures := temperatures s; hvac_active := hvac_active s;
     invalid_counts := invalid_counts s; sensor_error := set r v (sensor_error s);
     api_error := api_error s; http_log := http_log s |}.

Definition set_api_error r v s :=
  {| temperatures := temperatures s; hvac_active := hvac_active s;
     invalid_counts := invalid_counts s; sensor_error := sensor_error s;
     api_error := set r v (api_error s); http_log := http_log s |}.

Definition log_request q s :=
  {| temperatures := temperatures s; hvac_active := hvac_active s;
     invalid_counts := invalid_counts s; sensor_error := sensor_error s;
     api_error := api_error s; http_log := (http_log s ++ [q])%list |}.

(** ** MQTT messages *)

Record message : Type := mkMsg { topic : string; payload : string }.

(** [msg.topic.split("/")[1]]; [None] stands for [IndexError]. *)
Definition topic_room (t : string) : option string :=
  nth_error (split_on "/"%char t) 1.

(** [0 <= temp <= 50] *)
Definition in_range (temp : float) : bool :=
  PrimFloat.leb 0%float temp && PrimFloat.leb temp 50%float.

(** [temp > 30] *)
Definition should_activate (temp : float) : bool := PrimFloat.ltb 30%float temp.

(** [status == "active"] on the value of [resp.json().get("status")] *)
Definition status_is_active (status : option string) : bool :=
  match status with
  | Some st => String.eqb st "active"
  | None => false
  end.

(** How a statement sequence ends: normally, or by an exception that leaves
    the enclosing [for] loop (here always a [KeyError] on a dictionary). *)
Inductive outcome : Type :=
| Done (s : state)
| Raised (s : state).

Definition state_of (o : outcome) : state :=
  match o with Done s | Raised s => s end.

Definition raised (o : outcome) : bool :=
  match o with Done _ => false | Raised _ => true end.

(** A reference instance of the builtin [float] on plain decimal literals
    ([-]digits[.digits]) with a significand below 2^53 and at most 18
    fractional digits, where the conversion is one correctly rounded
    division.  It serves to run the scenarios of the test suite. *)

Definition digit_of (c : ascii) : option Z :=
  let n := Z.of_N (N_of_ascii c) - 48 in
  if (0 <=? n) && (n <=? 9) then Some n else None.

(** Reads a run of digits: accumulated value, digits read, rest. *)
Fixpoint scan_digits (s : string) (acc : Z) (cnt : nat) : Z * nat * string :=
  match s with
  | EmptyString => (acc, cnt, s)
  | String c rest =>
      match digit_of c with
      | Some d => scan_digits rest (10 * acc + d) (S cnt)
      | None => (acc, cnt, s)
      end
  end.

Definition float_of_Z (z : Z) : float := PrimFloat.of_uint63 (Uint63.of_Z z).

Definition unsigned_decimal (s : string) : option float :=
  let '(ip, ni, rest) := scan_digits s 0 0%nat in
  match rest with
  | EmptyString =>
      if (0 <? Z.of_nat ni) && (ip <? 2 ^ 53) then Some (float_of_Z ip) else None
  | String "."%char frac =>
      let '(m, nf, rest') := scan_digits frac ip 0%nat in
      match rest' with
      | EmptyString =>
          if (0 <? Z.of_nat (ni + nf)) && (m <? 2 ^ 53) && (Z.of_nat nf <=? 18)
          then Some (PrimFloat.div (float_of_Z m) (float_of_Z (10 ^ Z.of_nat nf)))
          else None
      | _ => None
      end
  | _ => None
  end.

Definition decimal_float (s : string) : option float :=
  match s with
  | String "-"%char rest => option_map PrimFloat.opp (unsigned_decimal rest)
  | _ => unsigned_decimal s
  end.

(** ** The service *)

Section Service.

(** [float(msg.payload.decode())]; [None] stands for [ValueError]. *)
Variable py_float : string -> option float.

(** Outcome of the n-th HTTP attempt the service makes (counted from 0). *)
Variable backend : nat -> response.

(** The [except (ValueError, IndexError)] branch of [on_message]. *)
Definition on_message_except (msg : message) (s : state) : state :=
  match topic_room (topic msg) with
  | None => s
  | Some room =>
      match get room (invalid_counts s) with
      | None => s
      | Some c =>
          let s1 := set_invalid_count room (c + 1) s in
          if c + 1 >=? Invalid_Data_Limit
          then set_sensor_error room true s1
          else s1
      end
  end.

(** [MiddlewareService.on_message] *)
Definition on_message (msg : message) (s : state) : state :=
  match topic_room (topic msg) with
  | None => on_message_except msg s
  | Some room =>
      match py_float (payload msg) with
      | None => on_message_except msg s
      | Some temp =>
          if negb (in_range temp) then on_message_except msg s
          else set_sensor_error room false
                 (set_invalid_count room 0 (set_temperature room temp s))
      end
  end.

(** The [for attempt in range(...)] loop of [poll_hvac_status] and what
    follows it; [n] is the number of attempts left. *)
Fixpoint poll_attempts (n : nat) (room : string) (s : state) : state :=
  match n with
  | O => set_api_error room true s
  | S n' =>
      let s1 := log_request (GET_status room) s in
      match backend (List.length (http_log s)) with
      | Ok status =>
          set_api_error room false
            (set_hvac_active room (Some (status_is_active status)) s1)
      | RequestException => poll_attempts n' room s1
      | OtherException => s1
      end
  end.

(** [MiddlewareService.poll_hvac_status] *)
Definition poll_hvac_status (room : string) (s : state) : state :=
  poll_attempts API_Rerty_Limit room s.

(** The retry loop of [send_hvac_command] and what follows it. *)
Fixpoint send_attempts (n : nat) (room command : string) (s : state) : state :=
  match n with
  | O => set_api_error room true s
  | S n' =>
      let s1 := log_request (POST_command room command) s in
      match backend (List.length (http_log s)) with
      | Ok _ => set_api_error room false s1
      | RequestException | OtherException => send_attempts n' room command s1
      end
  end.

(** [MiddlewareService.send_hvac_command] *)
Definition send_hvac_command (room : string) (activate : bool) (s : state) : state :=
  let command := if activate then "activate" else "deactivate" in
  send_attempts API_Rerty_Limit room command s.

(** [x is not True], [x is not False] on a value of [hvac_active] *)
Definition is_not (b : bool) (x : option bool) : bool :=
  match x with
  | Some b' => negb (Bool.eqb b b')
  | None => true
  end.

(** Body of [for room, temp in temps.items()] in [run]. *)
Definition loop_body (room : string) (temp : float) (s : state) : outcome :=
  match get room (sensor_error s) with
  | None => Raised s
  | Some true => Done s
  | Some false =>
      match get room (api_error s) with
      | None => Raised s
      | Some true => Done s
      | Some false =>
          match get room (hvac_active s) with
          | None => Raised s
          | Some active =>
              if should_activate temp && is_not true active then
                Done (set_hvac_active room (Some true)
                        (send_hvac_command room true s))
              else if negb (should_activate temp) && is_not false active then
                Done (set_hvac_active room (Some false)
                        (send_hvac_command room false s))
              else Done s
          end
      end
  end.

Fixpoint for_items (items : list (string * float)) (s : state) : outcome :=
  match items with
  | [] => Done s
  | (room, temp) :: rest =>
      match loop_body room temp s with
      | Done s' => for_items rest s'
      | Raised s' => Raised s'
      end
  end.

(** One pass of the [while True] body of [run]: the loop over a copy of the
    temperatures.  An exception is caught by the pass's own handler. *)
Definition control_cycle (s : state) : outcome :=
  let temps := temperatures s in
  for_items temps s.

Fixpoint control_cycles (n : nat) (s : state) : state :=
  match n with
  | O => s
  | S n' => control_cycles n' (state_of (control_cycle s))
  end.

(** The polls [run] makes before it enters the loop. *)
Definition initial_polls (s : state) : state :=
  fold_left (fun s room => poll_hvac_status room s) ROOMS s.

(** [MiddlewareService.run], cut after [n] passes of its endless loop. *)
Definition run (n : nat) (s : state) : state :=
  control_cycles n (initial_polls s).

End Service.

(** ** Observations the statements are written with *)

(** Everything the service holds about one room; a missing entry is [None]. *)
Record room_state : Type := mkRoom {
  lastTemperature : option float;
  commandedActive : option (option bool);
  invalidReadingCount : option Z;
  sensorFault : option bool;
  backendFault : option bool
}.

Definition room_view (r : string) (s : state) : room_state :=
  {| lastTemperature := get r (temperatures s);
     commandedActive := get r (hvac_active s);
     invalidReadingCount := get r (invalid_counts s);
     sensorFault := get r (sensor_error s);
     backendFault := get r (api_error s) |}.

Definition request_room (q : request) : string :=
  match q with GET_status r | POST_command r _ => r end.

(** The requests of a log that concern room [r]. *)
Definition calls_for (r : string) (log : list request) : list request :=
  filter (fun q => String.eqb (request_room q) r) log.

(** From [s] to [s'] nothing the service holds about [r] changed and no
    request about [r] was made. *)
Definition quiet (r : string) (s s' : state) : Prop :=
  room_view r s' = room_view r s /\
  exists new, http_log s' = (http_log s ++ new)%list /\ calls_for r new = [].

(** A reading the [try] block of [on_message] accepts. *)
Definition is_valid_reading (py_float : string -> option float) (msg : message) : bool :=
  match py_float (payload msg) with
  | Some temp => in_range temp
  | None => false
  end.

(** The topic names room [r]. *)
Definition addressed_to (r : string) (msg : message) : bool :=
  match topic_room (topic msg) with
  | Some room => String.eqb room r
  | None => false
  end.

(** An invalid reading for [r]: the payload does not parse or the value is
    out of range. *)
Definition invalid_for (py_float : string -> option float) (r : string)
  (msg : message) : bool :=
  addressed_to r msg && negb (is_valid_reading py_float msg).

(** Messages delivered one after the other. *)
Definition on_messages (py_float : string -> option float)
  (msgs : list message) (s : state) : state :=
  fold_left (fun s msg => on_message py_float msg s) msgs s.

Definition is_ok (x : response) : bool :=
  match x with Ok _ => true | _ => false end.

Definition is_request_exception (x : response) : bool :=
  match x with RequestException => true | _ => false end.

(** The outcomes the next [n] HTTP attempts made from [s] will get. *)
Definition replies (backend : nat -> response) (n : nat) (s : state) : list response :=
  map (fun i => backend (List.length (http_log s) + i)%nat) (seq 0 n).

(** The retry loop runs to its end: every attempt is answered by an
    exception the loop retries on. *)
Definition poll_exhausts backend s : bool :=
  forallb is_request_exception (replies backend API_Rerty_Limit s).

Definition send_exhausts backend s : bool :=
  forallb (fun x => negb (is_ok x)) (replies backend API_Rerty_Limit s).

(** Some attempt within the limit gets a good answer, every earlier one
    having been retried. *)
Fixpoint ends_ok (retry : response -> bool) (l : list response) : bool :=
  match l with
  | [] => false
  | x :: l' => is_ok x || (retry x && ends_ok retry l')
  end.

Definition poll_succeeds backend s : bool :=
  ends_ok is_request_exception (replies backend API_Rerty_Limit s).

Definition send_succeeds backend s : bool :=
  ends_ok (fun x => negb (is_ok x)) (replies backend API_Rerty_Limit s).

(** Every room of [ks] has its flags and its commanded state, so that the
    loop body raises no [KeyError] on it. *)
Definition tracked (ks : list string) (s : state) : bool :=
  forallb (fun k => mem k (sensor_error s) && mem k (api_error s) &&
                    mem k (hvac_active s)) ks.

(** No key occurs twice: the representation invariant of a dictionary. *)
Fixpoint distinct (ks : list string) : bool :=
  match ks with
  | [] => true
  | k :: ks' => negb (existsb (String.eqb k) ks') && distinct ks'
  end.

(** ** Sample backends and messages *)

Definition backend_down : nat -> response := fun _ => RequestException.

Definition backend_inactive : nat -> response := fun _ => Ok (Some "inactive").

Definition backend_active : nat -> response := fun _ => Ok (Some "active").

(** Answers the five start-up polls with "inactive", then fails. *)
Definition backend_fails_after_polls : nat -> response :=
  fun n => if (n <? 5)%nat then Ok (Some "inactive") else RequestException.

(** Fails three times, then answers. *)
Definition backend_recovers : nat -> response :=
  fun n => if (n <? 3)%nat then RequestException else Ok (Some "active").

Definition reading (room value : string) : message :=
  {| topic := "building/" ++ room ++ "/temperature"; payload := value |}.

(** ** Connection callbacks and topics *)

(** [c in s] for a character [c]. *)
Fixpoint contains_char (c : ascii) (s : string) : bool :=
  match s with
  | EmptyString => false
  | String c' rest => Ascii.eqb c' c || contains_char c rest
  end.

(** [f"building/{room}/temperature"] *)
Definition temperature_topic (room : string) : string :=
  "building/" ++ room ++ "/temperature".

Definition Temp_Topics : list string := map temperature_topic ROOMS.

(** [MiddlewareService.on_connect]: the topics it subscribes to, in order. *)
Definition on_connect (rc : Z) : list string :=
  if rc =? 0 then Temp_Topics else [].

(** [MiddlewareService.on_disconnect]: the [while True] loop around
    [client.reconnect()].  [reconnects n] tells whether the n-th call
    returns ([true]) or raises; the result is the number of calls made when
    the loop is left, [None] when [fuel] iterations did not leave it. *)
Fixpoint reconnect_loop (fuel : nat) (reconnects : nat -> bool) (n : nat) : option nat :=
  match fuel with
  | O => None
  | S fuel' =>
      if reconnects n then Some (S n)
      else reconnect_loop fuel' reconnects (S n)
  end.

Definition on_disconnect (fuel : nat) (reconnects : nat -> bool) : option nat :=
  reconnect_loop fuel reconnects 0.

(** ** Runs of the service *)

(** What can happen to a constructed service: a message is delivered, a
    status poll is made (at start-up), the control loop makes a pass. *)
Inductive event : Type :=
| Deliver (msg : message)
| Poll (room : string)
| Pass.

Definition step (py_float : string -> option float) (backend : nat -> response)
  (e : event) (s : state) : state :=
  match e with
  | Deliver msg => on_message py_float msg s
  | Poll room => poll_hvac_status backend room s
  | Pass => state_of (control_cycle backend s)
  end.

Definition run_events (py_float : string -> option float) (backend : nat -> response)
  (events : list event) (s : state) : state :=
  fold_left (fun s e => step py_float backend e s) events s.

(** The event concerns configured rooms only: the message is on a topic
    [on_connect] subscribes to, the poll is for a room of [ROOMS]. *)
Definition configured_event (e : event) : bool :=
  match e with
  | Deliver msg => existsb (String.eqb (topic msg)) (on_connect 0)
  | Poll room => existsb (String.eqb room) ROOMS
  | Pass => true
  end.

(** The counter and the sensor flag of every room agree: both absent, or
    the counter is not negative and the flag says whether it reached the
    limit. *)
Definition counters_consistent (s : state) : Prop :=
  forall r,
    match get r (invalid_counts s), get r (sensor_error s) with
    | Some c, Some f => 0 <= c /\ f = (c >=? Invalid_Data_Limit)
    | None, None => True
    | _, _ => False
    end.

(** Several requests logged in a row. *)
Definition log_requests (qs : list request) (s : state) : state :=
  fold_left (fun s q => log_request q s) qs s.

(** How many attempts a retry loop makes on these replies: up to and
    including the first one it does not retry on. *)
Fixpoint attempts_made (retry : response -> bool) (l : list response) : nat :=
  match l with
  | [] => O
  | x :: l' => if retry x then S (attempts_made retry l') else 1%nat
  end.

(** The first reply the retry loop does not retry on, if any. *)
Fixpoint first_final (retry : response -> bool) (l : list response) : option response :=
  match l with
  | [] => None
  | x :: l' => if retry x then first_final retry l' else Some x
  end.

(** A request the control loop may make for the rooms [ks]: a POST of
    "activate" or "deactivate" for one of them. *)
Definition loop_command (ks : list string) (q : request) : bool :=
  match q with
  | POST_command r c =>
      existsb (String.eqb r) ks &&
      (String.eqb c "activate" || String.eqb c "deactivate")
  | GET_status _ => false
  end.

(** ** The mock legacy API ([mock_legacy_api.py])

    The Flask handlers as functions of the room in the URL, the request and
    the module-level dictionary [room_status].  A request is what the
    handlers read of it: [request.authorization] (absent, or a user name
    and a password, either possibly [None]) and
    [request.get_json(silent=True)] ([JNull] is [None]: no body, no JSON or
    the JSON [null]).  Routing and the wire format are Flask's. *)

Module MockApi.

Definition HVAC_API_USER : string := "apiuser".
Definition HVAC_API_PASS : string := "apipassword".

(** The module-level [room_status] as the module creates it. *)
Definition room_status : dict string :=
  [("room1", "inactive"); ("room2", "inactive"); ("room3", "inactive");
   ("room4", "inactive"); ("room5", "inactive")].

(** A parsed JSON value, as Python holds it. *)
#[local] Unset Elimination Schemes.

Inductive json : Type :=
| JNull
| JBool (b : bool)
| JInt (n : Z)
| JFloat (x : float)
| JString (s : string)
| JArray (items : list json)
| JObject (members : dict json).

#[local] Set Elimination Schemes.

Record http_request : Type := mkRequest {
  authorization : option (option string * option string);
  get_json : json
}.

(** [jsonify(body), code], or the 401 of [authenticate()]. *)
Inductive http_response : Type :=
| Json (body : dict json) (code : Z)
| Unauthorized.

Definition status_code (r : http_response) : Z :=
  match r with
  | Json _ code => code
  | Unauthorized => 401
  end.

(** A handler returns a response, or raises (a [TypeError], which Flask
    turns into a 500); either way [room_status] is what it is then. *)
Inductive result : Type :=
| Returns (rs : dict string) (r : http_response)
| Raises (rs : dict string).

Definition status_after (o : result) : dict string :=
  match o with Returns rs _ | Raises rs => rs end.

(** [x == s] for a value that is a string or [None]. *)
Definition eq_str (x : option string) (s : string) : bool :=
  match x with
  | Some s' => String.eqb s' s
  | None => false
  end.

Definition check_auth (username password : option string) : bool :=
  eq_str username HVAC_API_USER && eq_str password HVAC_API_PASS.

Definition authenticate : http_response := Unauthorized.

(** The decorator. *)
Definition requires_auth (f : string -> http_request -> dict string -> result)
  (room : string) (req : http_request) (rs : dict string) : result :=
  match authorization req with
  | None => Returns rs authenticate
  | Some (username, password) =>
      if negb (check_auth username password) then Returns rs authenticate
      else f room req rs
  end.

(** Python truth value of a parsed JSON value. *)
Definition truthy (j : json) : bool :=
  match j with
  | JNull => false
  | JBool b => b
  | JInt n => negb (n =? 0)
  | JFloat x => negb (PrimFloat.eqb x 0%float)
  | JString s => negb (String.eqb s "")
  | JArray items => match items with [] => false | _ => true end
  | JObject members => match members with [] => false | _ => true end
  end.

(** [x == s] for a parsed JSON value [x] and a string [s]. *)
Definition json_is (x : json) (s : string) : bool :=
  match x with
  | JString s' => String.eqb s' s
  | _ => false
  end.

(** [needle in hay] on strings. *)
Fixpoint contains (needle hay : string) : bool :=
  String.prefix needle hay ||
  match hay with
  | EmptyString => false
  | String _ rest => contains needle rest
  end.

(** ["command" in data]; [None] stands for [TypeError]. *)
Definition has_command (data : json) : option bool :=
  match data with
  | JObject members => Some (mem "command" members)
  | JArray items => Some (existsb (fun x => json_is x "command") items)
  | JString s => Some (contains "command" s)
  | JNull | JBool _ | JInt _ | JFloat _ => None
  end.

(** [data["command"]]; [None] stands for [TypeError] (or [KeyError]). *)
Definition command_of (data : json) : option json :=
  match data with
  | JObject members => get "command" members
  | _ => None
  end.

(** [get_status] before decoration. *)
Definition get_status_view (room : string) (req : http_request)
  (rs : dict string) : result :=
  match get room rs with
  | None => Returns rs (Json [("error", JString "Room not found")] 404)
  | Some status =>
      Returns rs (Json [("room", JString room); ("status", JString status)] 200)
  end.

Definition get_status := requires_auth get_status_view.

(** [command] before decoration. *)
Definition command_view (room : string) (req : http_request)
  (rs : dict string) : result :=
  if negb (mem room rs) then
    Returns rs (Json [("error", JString "Room not found")] 404)
  else
    let data := get_json req in
    let missing := Json [("error", JString "Missing 'command' in request body")] 400 in
    if negb (truthy data) then Returns rs missing
    else
      match has_command data with
      | None => Raises rs
      | Some false => Returns rs missing
      | Some true =>
          match command_of data with
          | None => Raises rs
          | Some command =>
              if negb (json_is command "activate" || json_is command "deactivate")
              then Returns rs (Json [("error", JString "Invalid command")] 400)
              else
                let status := if json_is command "activate"
                              then "active" else "inactive" in
                let rs' := set room status rs in
                match get room rs' with
                | Some st =>
                    Returns rs' (Json [("room", JString room);
                                       ("status", JString st)] 200)
                | None =>
                    (* the [except] of the handler; its "details" text is
                       left out *)
                    Returns rs' (Json [("error", JString "Internal server error")] 500)
                end
          end
      end.

Definition command := requires_auth command_view.

End MockApi.

(** What the middleware sends: [auth=AUTH] on both calls and
    [json={"command": command}] on the POST. *)
Definition HVAC_API_User : string := "apiuser".
Definition HVAC_API_Pass : string := "apipassword".

Definition status_request : MockApi.http_request :=
  {| MockApi.authorization := Some (Some HVAC_API_User, Some HVAC_API_Pass);
     MockApi.get_json := MockApi.JNull |}.

Definition command_request (command : string) : MockApi.http_request :=
  {| MockApi.authorization := Some (Some HVAC_API_User, Some HVAC_API_Pass);
     MockApi.get_json := MockApi.JObject [("command", MockApi.JString command)] |}.

(** [resp.json().get("status")] on a 200 answer of the mock API. *)
Definition status_field (r : MockApi.http_response) : option string :=
  match r with
  | MockApi.Json body _ =>
      match get "status" body with
      | Some (MockApi.JString st) => Some st
      | _ => None
      end
  | MockApi.Unauthorized => None
  end.

(** The request the API accepts as a command for [room]: good credentials,
    a known room, and a JSON object whose "command" is one of the two
    words. *)
Definition accepted_command (room : string) (req : MockApi.http_request)
  (rs : dict string) : bool :=
  match MockApi.authorization req with
  | Some (u, p) => MockApi.check_auth u p
  | None => false
  end &&
  mem room rs &&
  match MockApi.get_json req with
  | MockApi.JObject members =>
      match get "command" members with
      | Some c => MockApi.json_is c "activate" || MockApi.json_is c "deactivate"
      | None => false
      end
  | _ => false
  end.

(** A truthy body that is no JSON object and on which the handler's
    ["command" not in data] or [data["command"]] raises: [true], a non-zero
    number, an array that has the string "command" among its items, a
    string that contains "command". *)
Definition raising_body (data : MockApi.json) : bool :=
  MockApi.truthy data &&
  match data with
  | MockApi.JObject _ => false
  | MockApi.JArray items => existsb (fun x => MockApi.json_is x "command") items
  | MockApi.JString s => MockApi.contains "command" s
  | _ => true
  end.

(** The API after a sequence of command requests, each for some room. *)
Definition serve_commands (calls : list (string * MockApi.http_request))
  (rs : dict string) : dict string :=
  fold_left (fun rs call =>
               MockApi.status_after (MockApi.command (fst call) (snd call) rs))
    calls rs.

(** ** Facts about dictionaries *)

Module PyDictFacts.

Section Facts.
Context {V : Type}.
Implicit Types (d : dict V) (k : string) (v : V).

Lemma get_set_same k v d : get k (set k v d) = Some v.
Proof.
  induction d as [|[k' v'] d IH]; simpl.
  - now rewrite String.eqb_refl.
  - destruct (String.eqb k k') eqn:E; simpl; now rewrite E.
Qed.

Lemma get_set_other k k' v d : k' <> k -> get k' (set k v d) = get k' d.
Proof.
  intros Hne. induction d as [|[k0 v0] d IH]; simpl.
  - apply String.eqb_neq in Hne. now rewrite Hne.
  - destruct (String.eqb k k0) eqn:E; simpl.
    + apply String.eqb_eq in E. subst k0.
      apply String.eqb_neq in Hne. now rewrite Hne.
    + now rewrite IH.
Qed.

Lemma mem_set_same k v d : mem k (set k v d) = true.
Proof. unfold mem. now rewrite get_set_same. Qed.

Lemma mem_set_other k k' v d : k' <> k -> mem k' (set k v d) = mem k' d.
Proof. intros. unfold mem. now rewrite get_set_other. Qed.

(** Assigning to a key that is present keeps the key list as it is. *)
Lemma keys_set_present k v d : mem k d = true -> keys (set k v d) = keys d.
Proof.
  unfold mem. induction d as [|[k' v'] d IH]; simpl; [discriminate|].
  destruct (String.eqb k k') eqn:E; simpl; intros H; [reflexivity|].
  now rewrite IH.
Qed.

(** Assigning to a key that is absent appends it. *)
Lemma keys_set_absent k v d : mem k d = false -> keys (set k v d) = (keys d ++ [k])%list.
Proof.
  unfold mem. induction d as [|[k' v'] d IH]; simpl; [reflexivity|].
  destruct (String.eqb k k') eqn:E; simpl; intros H; [discriminate|].
  now rewrite IH.
Qed.

Lemma mem_set_mono k k' v d : mem k' d = true -> mem k' (set k v d) = true.
Proof.
  intros H. destruct (string_dec k' k) as [->|Hne].
  - apply mem_set_same.
  - now rewrite mem_set_other.
Qed.

Lemma mem_keys k d : mem k d = true <-> In k (keys d).
Proof.
  unfold mem. induction d as [|[k' v'] d IH]; simpl.
  - split; [discriminate | tauto].
  - destruct (String.eqb k k') eqn:E.
    + apply String.eqb_eq in E. subst. tauto.
    + apply String.eqb_neq in E. rewrite IH. split; [tauto|].
      intros [H|H]; [congruence | exact H].
Qed.

(** The first item of key [k] is the one [get] returns. *)
Lemma get_split k v d :
  get k d = Some v ->
  exists d1 d2, d = (d1 ++ (k, v) :: d2)%list /\ ~ In k (keys d1).
Proof.
  induction d as [|[k' v'] d IH]; simpl; [discriminate|].
  destruct (String.eqb k k') eqn:E.
  - intros [= ->]. apply String.eqb_eq in E. subst k'.
    exists [], d. simpl. tauto.
  - intros H. destruct (IH H) as (d1 & d2 & -> & Hn).
    exists ((k', v') :: d1), d2. split; [reflexivity|].
    simpl. apply String.eqb_neq in E. intros [Hk|Hk]; [congruence | tauto].
Qed.

Lemma distinct_NoDup (ks : list string) : distinct ks = true <-> NoDup ks.
Proof.
  induction ks as [|k ks IH]; simpl.
  - split; [constructor | reflexivity].
  - rewrite andb_true_iff, negb_true_iff, IH. split.
    + intros [Hn Hd]. constructor; [|exact Hd]. intros Hin.
      assert (existsb (String.eqb k) ks = true); [|congruence].
      apply existsb_exists. exists k. split; [exact Hin | apply String.eqb_refl].
    + intros H. inversion H as [|? ? Hn Hd]; subst. split; [|exact Hd].
      apply not_true_is_false. intros He. apply Hn.
      apply existsb_exists in He. destruct He as (x & Hx & E).
      apply String.eqb_eq in E. now subst.
Qed.

(** In a dictionary no later item has the key [get] found. *)
Lemma distinct_keys_split k v (d1 d2 : dict V) :
  distinct (keys (d1 ++ (k, v) :: d2)%list) = true -> ~ In k (keys d2).
Proof.
  rewrite distinct_NoDup. unfold keys. rewrite map_app. simpl. intros H.
  apply NoDup_remove_2 in H. intros Hin. apply H.
  apply in_or_app. now right.
Qed.

Lemma distinct_keys_set k v d :
  distinct (keys d) = true -> distinct (keys (set k v d)) = true.
Proof.
  rewrite !distinct_NoDup. intros H. destruct (mem k d) eqn:E.
  - now rewrite keys_set_present.
  - rewrite keys_set_absent by exact E.
    apply NoDup_app; [exact H | repeat constructor; simpl; tauto |].
    intros x Hx [<-|[]]. apply mem_keys in Hx. congruence.
Qed.

End Facts.

End PyDictFacts.

Import PyDictFacts.

(** ** Frame lemmas: what a step leaves alone *)

Section ServiceFacts.

Variable backend : nat -> response.

Lemma calls_for_app r l1 l2 :
  calls_for r (l1 ++ l2) = (calls_for r l1 ++ calls_for r l2)%list.
Proof. unfold calls_for. apply filter_app. Qed.

Lemma quiet_refl r s : quiet r s s.
Proof.
  split; [reflexivity|]. exists []. now rewrite app_nil_r.
Qed.

Lemma quiet_trans r s1 s2 s3 : quiet r s1 s2 -> quiet r s2 s3 -> quiet r s1 s3.
Proof.
  intros [V1 (n1 & L1 & C1)] [V2 (n2 & L2 & C2)]. split.
  - now rewrite V2.
  - exists (n1 ++ n2)%list. rewrite L2, L1, <- app_assoc. split; [reflexivity|].
    now rewrite calls_for_app, C1, C2.
Qed.

Lemma quiet_view r s s' : quiet r s s' -> room_view r s' = room_view r s.
Proof. now intros [H _]. Qed.

(** A step that keeps the log and the view of [r] is quiet for [r]. *)
Lemma quiet_same_log r s s' :
  room_view r s' = room_view r s -> http_log s' = http_log s -> quiet r s s'.
Proof.
  intros Hv Hl. split; [exact Hv|]. exists []. now rewrite app_nil_r.
Qed.

Ltac other_room :=
  apply quiet_same_log; [|reflexivity];
  unfold room_view; simpl; now rewrite ?get_set_other by assumption.

Lemma quiet_set_temperature r room v s :
  r <> room -> quiet r s (set_temperature room v s).
Proof. intros H. other_room. Qed.

Lemma quiet_set_hvac_active r room v s :
  r <> room -> quiet r s (set_hvac_active room v s).
Proof. intros H. other_room. Qed.

Lemma quiet_set_invalid_count r room v s :
  r <> room -> quiet r s (set_invalid_count room v s).
Proof. intros H. other_room. Qed.

Lemma quiet_set_sensor_error r room v s :
  r <> room -> quiet r s (set_sensor_error room v s).
Proof. intros H. other_room. Qed.

Lemma quiet_set_api_error r room v s :
  r <> room -> quiet r s (set_api_error room v s).
Proof. intros H. other_room. Qed.

Lemma quiet_log_request r q s :
  r <> request_room q -> quiet r s (log_request q s).
Proof.
  intros H. split; [reflexivity|]. exists [q]. split; [reflexivity|].
  unfold calls_for. simpl.
  destruct (String.eqb (request_room q) r) eqn:E; [|reflexivity].
  apply String.eqb_eq in E. congruence.
Qed.

Create HintDb quiet.

#[local] Hint Resolve quiet_refl quiet_set_temperature quiet_set_hvac_active
  quiet_set_invalid_count quiet_set_sensor_error quiet_set_api_error
  quiet_log_request : quiet.

Lemma quiet_poll_attempts r n room s :
  r <> room -> quiet r s (poll_attempts backend n room s).
Proof.
  intros H. revert s. induction n as [|n IH]; intros s; simpl.
  - auto with quiet.
  - assert (Hq : quiet r s (log_request (GET_status room) s)) by auto with quiet.
    destruct (backend _).
    + eapply quiet_trans; [exact Hq|].
      eapply quiet_trans; [apply quiet_set_hvac_active, H|].
      auto with quiet.
    + eapply quiet_trans; [exact Hq | apply IH].
    + exact Hq.
Qed.

Lemma quiet_send_attempts r n room command s :
  r <> room -> quiet r s (send_attempts backend n room command s).
Proof.
  intros H. revert s. induction n as [|n IH]; intros s; simpl.
  - auto with quiet.
  - assert (Hq : quiet r s (log_request (POST_command room command) s))
      by auto with quiet.
    destruct (backend _).
    + eapply quiet_trans; [exact Hq | auto with quiet].
    + eapply quiet_trans; [exact Hq | apply IH].
    + eapply quiet_trans; [exact Hq | apply IH].
Qed.

Lemma quiet_send_hvac_command r room activate s :
  r <> room -> quiet r s (send_hvac_command backend room activate s).
Proof. intros H. unfold send_hvac_command. now apply quiet_send_attempts. Qed.

Lemma quiet_loop_body r room temp s :
  r <> room -> quiet r s (state_of (loop_body backend room temp s)).
Proof.
  intros H. unfold loop_body.
  destruct (get room (sensor_error s)) as [[|]|]; simpl; auto with quiet.
  destruct (get room (api_error s)) as [[|]|]; simpl; auto with quiet.
  destruct (get room (hvac_active s)) as [active|]; simpl; auto with quiet.
  destruct (should_activate temp && is_not true active); simpl.
  - eapply quiet_trans; [apply quiet_send_hvac_command, H | auto with quiet].
  - destruct (negb (should_activate temp) && is_not false active); simpl;
      auto with quiet.
    eapply quiet_trans; [apply quiet_send_hvac_command, H | auto with quiet].
Qed.

Lemma quiet_for_items r items s :
  ~ In r (keys items) -> quiet r s (state_of (for_items backend items s)).
Proof.
  revert s. induction items as [|[room temp] items IH]; intros s Hn; simpl.
  - apply quiet_refl.
  - simpl in Hn.
    assert (Hne : r <> room) by (intros ->; tauto).
    pose proof (quiet_loop_body r room temp s Hne) as Hb.
    destruct (loop_body backend room temp s) as [s'|s']; simpl in *.
    + eapply quiet_trans; [exact Hb | apply IH; tauto].
    + exact Hb.
Qed.

(** ** The retry loops *)

Lemma replies_S n q s :
  replies backend (S n) s =
  backend (List.length (http_log s)) :: replies backend n (log_request q s).
Proof.
  unfold replies. change (seq 0 (S n)) with (0%nat :: seq 1 n).
  rewrite <- seq_shift. cbn [map http_log log_request]. rewrite map_map.
  rewrite Nat.add_0_r. f_equal. apply map_ext. intros i.
  rewrite length_app. simpl. f_equal. lia.
Qed.

(** A command touches the API flag of its room and the log, nothing else. *)
Lemma send_attempts_fields n room command s :
  let s' := send_attempts backend n room command s in
  temperatures s' = temperatures s /\ hvac_active s' = hvac_active s /\
  invalid_counts s' = invalid_counts s /\ sensor_error s' = sensor_error s /\
  exists b, api_error s' = set room b (api_error s).
Proof.
  revert s. induction n as [|n IH]; intros s; simpl.
  - repeat split. now exists true.
  - destruct (backend _); simpl.
    + repeat split. now exists false.
    + apply (IH (log_request _ s)).
    + apply (IH (log_request _ s)).
Qed.

Lemma send_hvac_command_fields room activate s :
  let s' := send_hvac_command backend room activate s in
  temperatures s' = temperatures s /\ hvac_active s' = hvac_active s /\
  invalid_counts s' = invalid_counts s /\ sensor_error s' = sensor_error s /\
  exists b, api_error s' = set room b (api_error s).
Proof. apply send_attempts_fields. Qed.

Lemma send_attempts_exhausted n room command s :
  forallb (fun x => negb (is_ok x)) (replies backend n s) = true ->
  get room (api_error (send_attempts backend n room command s)) = Some true.
Proof.
  revert s. induction n as [|n IH]; intros s.
  - intros _. apply get_set_same.
  - rewrite (replies_S n (POST_command room command)). simpl.
    destruct (backend _); simpl; try discriminate; apply IH.
Qed.

Lemma send_attempts_succeeds n room command s :
  ends_ok (fun x => negb (is_ok x)) (replies backend n s) = true ->
  get room (api_error (send_attempts backend n room command s)) = Some false.
Proof.
  revert s. induction n as [|n IH]; intros s.
  - discriminate.
  - rewrite (replies_S n (POST_command room command)). simpl.
    destruct (backend _); simpl; try apply IH.
    intros _. apply get_set_same.
Qed.

Lemma send_attempts_extends n room command s :
  exists new,
    http_log (send_attempts backend n room command s) = (http_log s ++ new)%list.
Proof.
  revert s. induction n as [|n IH]; intros s; simpl.
  - exists []. now rewrite app_nil_r.
  - destruct (backend _); simpl;
      [now exists [POST_command room command] | |];
      destruct (IH (log_request (POST_command room command) s)) as [new L];
      exists (POST_command room command :: new); rewrite L; simpl;
      now rewrite <- app_assoc.
Qed.

(** The first attempt of a command is always made. *)
Lemma send_attempts_log n room command s :
  exists more,
    http_log (send_attempts backend (S n) room command s) =
    (http_log s ++ POST_command room command :: more)%list.
Proof.
  destruct (send_attempts_extends n room command
              (log_request (POST_command room command) s)) as [new L].
  simpl in *. destruct (backend _); simpl; [now exists [] | |];
    exists new; rewrite L; now rewrite <- app_assoc.
Qed.

Lemma send_hvac_command_log room activate s :
  exists more,
    http_log (send_hvac_command backend room activate s) =
    (http_log s ++
     POST_command room (if activate then "activate" else "deactivate") :: more)%list.
Proof.
  unfold send_hvac_command. change API_Rerty_Limit with (S 2).
  apply send_attempts_log.
Qed.

(** A poll touches the commanded state and the API flag of its room and the
    log, nothing else. *)
Lemma poll_attempts_fields n room s :
  let s' := poll_attempts backend n room s in
  temperatures s' = temperatures s /\ invalid_counts s' = invalid_counts s /\
  sensor_error s' = sensor_error s /\
  (forall k, mem k (hvac_active s) = true -> mem k (hvac_active s') = true) /\
  (forall k, mem k (api_error s) = true -> mem k (api_error s') = true).
Proof.
  revert s. induction n as [|n IH]; intros s; simpl.
  - repeat split; auto. intros k. apply mem_set_mono.
  - destruct (backend _); simpl.
    + repeat split; intros k; apply mem_set_mono.
    + apply (IH (log_request _ s)).
    + repeat split; auto.
Qed.

Lemma poll_attempts_exhausted n room s :
  forallb is_request_exception (replies backend n s) = true ->
  let s' := poll_attempts backend n room s in
  get room (api_error s') = Some true /\ hvac_active s' = hvac_active s.
Proof.
  revert s. induction n as [|n IH]; intros s.
  - intros _. split; [apply get_set_same | reflexivity].
  - rewrite (replies_S n (GET_status room)). simpl.
    destruct (backend _); simpl; try discriminate.
    intros H. apply (IH (log_request _ s) H).
Qed.

Lemma poll_attempts_succeeds n room s :
  ends_ok is_request_exception (replies backend n s) = true ->
  get room (api_error (poll_attempts backend n room s)) = Some false.
Proof.
  revert s. induction n as [|n IH]; intros s.
  - discriminate.
  - rewrite (replies_S n (GET_status room)). simpl.
    destruct (backend _); simpl; try discriminate.
    + intros _. apply get_set_same.
    + apply IH.
Qed.

(** ** The loop body *)

(** A room with a fault flag is passed over. *)
Lemma loop_body_skip r temp s :
  get r (sensor_error s) = Some true \/ get r (api_error s) = Some true ->
  state_of (loop_body backend r temp s) = s.
Proof.
  intros H. unfold loop_body.
  destruct (get r (sensor_error s)) as [[|]|]; try reflexivity;
    destruct H as [H|H]; try discriminate; now rewrite H.
Qed.

(** A healthy room whose commanded state is the wanted one is left alone. *)
Lemma loop_body_steady r temp s :
  get r (sensor_error s) = Some false -> get r (api_error s) = Some false ->
  get r (hvac_active s) = Some (Some (should_activate temp)) ->
  loop_body backend r temp s = Done s.
Proof.
  intros Hs Ha Hh. unfold loop_body. rewrite Hs, Ha, Hh.
  now destruct (should_activate temp).
Qed.

(** A healthy room whose commanded state is not the wanted one gets the
    command, and the wanted state is stored whatever the command did. *)
Lemma loop_body_command r temp s a :
  get r (sensor_error s) = Some false -> get r (api_error s) = Some false ->
  get r (hvac_active s) = Some a -> a <> Some (should_activate temp) ->
  loop_body backend r temp s =
  Done (set_hvac_active r (Some (should_activate temp))
          (send_hvac_command backend r (should_activate temp) s)).
Proof.
  intros Hs Ha Hh Hne. unfold loop_body. rewrite Hs, Ha, Hh.
  destruct (should_activate temp), a as [[|]|]; simpl; congruence.
Qed.

(** No entry is ever removed by the loop body. *)
Lemma tracked_loop_body ks room temp s :
  tracked ks s = true -> tracked ks (state_of (loop_body backend room temp s)) = true.
Proof.
  assert (Hsend : forall b, tracked ks s = true ->
            tracked ks (set_hvac_active room (Some b)
                          (send_hvac_command backend room b s)) = true).
  { intros b. unfold tracked. rewrite !forallb_forall.
    intros H k Hk. specialize (H k Hk).
    cbn [set_hvac_active sensor_error api_error hvac_active].
    destruct (send_hvac_command_fields room b s)
      as (_ & Eh & _ & Es & (b' & Ea)).
    rewrite Eh, Es, Ea.
    apply andb_true_iff in H. destruct H as [H H3].
    apply andb_true_iff in H. destruct H as [H1 H2].
    rewrite H1. simpl. now rewrite !mem_set_mono. }
  intros H. unfold loop_body.
  destruct (get room (sensor_error s)) as [[|]|]; simpl; auto.
  destruct (get room (api_error s)) as [[|]|]; simpl; auto.
  destruct (get room (hvac_active s)) as [active|]; simpl; auto.
  destruct (should_activate temp && is_not true active); simpl; auto.
  destruct (negb (should_activate temp) && is_not false active); simpl; auto.
Qed.

Lemma loop_body_done ks room temp s :
  tracked ks s = true -> In room ks ->
  exists s', loop_body backend room temp s = Done s'.
Proof.
  unfold tracked. rewrite forallb_forall. intros H Hin.
  specialize (H room Hin). unfold mem in H. unfold loop_body.
  destruct (get room (sensor_error s)) as [[|]|]; simpl in H;
    try discriminate; eauto.
  destruct (get room (api_error s)) as [[|]|]; simpl in H;
    try discriminate; eauto.
  destruct (get room (hvac_active s)) as [active|]; simpl in H;
    try discriminate.
  destruct (should_activate temp && is_not true active); eauto.
  destruct (negb (should_activate temp) && is_not false active); eauto.
Qed.

(** ** The loop over the rooms *)

Lemma view_fields r s s' :
  room_view r s' = room_view r s ->
  get r (temperatures s') = get r (temperatures s) /\
  get r (hvac_active s') = get r (hvac_active s) /\
  get r (invalid_counts s') = get r (invalid_counts s) /\
  get r (sensor_error s') = get r (sensor_error s) /\
  get r (api_error s') = get r (api_error s).
Proof. unfold room_view. intros [= -> -> -> -> ->]. repeat split. Qed.

Lemma for_items_app l1 l2 s :
  for_items backend (l1 ++ l2) s =
  match for_items backend l1 s with
  | Done s' => for_items backend l2 s'
  | Raised s' => Raised s'
  end.
Proof.
  revert s. induction l1 as [|[room temp] l1 IH]; intros s; simpl.
  - reflexivity.
  - destruct (loop_body backend room temp s); [apply IH | reflexivity].
Qed.

Lemma tracked_for_items ks items s :
  tracked ks s = true -> tracked ks (state_of (for_items backend items s)) = true.
Proof.
  revert s. induction items as [|[room temp] items IH]; intros s H; simpl.
  - exact H.
  - pose proof (tracked_loop_body ks room temp s H) as Hb.
    destruct (loop_body backend room temp s); simpl in *; auto.
Qed.

Lemma for_items_done ks items s :
  tracked ks s = true -> incl (keys items) ks ->
  exists s', for_items backend items s = Done s'.
Proof.
  revert s. induction items as [|[room temp] items IH]; intros s H Hi; simpl.
  - now exists s.
  - destruct (loop_body_done ks room temp s H) as [s' E].
    { apply Hi. now left. }
    rewrite E. apply IH.
    + pose proof (tracked_loop_body ks room temp s H) as Hb.
      now rewrite E in Hb.
    + intros k Hk. apply Hi. now right.
Qed.

(** A room with a fault flag goes through the whole loop untouched. *)
Lemma for_items_faulted r items s :
  get r (sensor_error s) = Some true \/ get r (api_error s) = Some true ->
  quiet r s (state_of (for_items backend items s)).
Proof.
  revert s. induction items as [|[room temp] items IH]; intros s H; simpl.
  - apply quiet_refl.
  - assert (Hb : quiet r s (state_of (loop_body backend room temp s))).
    { destruct (string_dec r room) as [<-|Hne].
      - rewrite loop_body_skip by exact H. apply quiet_refl.
      - now apply quiet_loop_body. }
    destruct (loop_body backend room temp s) as [s'|s']; simpl in *; [|exact Hb].
    eapply quiet_trans; [exact Hb|]. apply IH.
    destruct (view_fields r s s' (quiet_view _ _ _ Hb)) as (_ & _ & _ & -> & ->).
    exact H.
Qed.

(** The loop around the one item of room [r]: quiet for [r] before it and
    after it. *)
Lemma for_items_at d1 r temp d2 s :
  ~ In r (keys d1) -> ~ In r (keys d2) ->
  let s' := state_of (for_items backend (d1 ++ (r, temp) :: d2) s) in
  exists s1, quiet r s s1 /\
    ((for_items backend d1 s = Raised s1 /\ s' = s1) \/
     (for_items backend d1 s = Done s1 /\
      quiet r (state_of (loop_body backend r temp s1)) s')).
Proof.
  intros H1 H2. cbv zeta. rewrite for_items_app.
  pose proof (quiet_for_items r d1 s H1) as Hq.
  destruct (for_items backend d1 s) as [s1|s1]; simpl in Hq; exists s1;
    (split; [exact Hq|]).
  - right. split; [reflexivity|]. simpl.
    destruct (loop_body backend r temp s1) as [s2|s2]; simpl.
    + now apply quiet_for_items.
    + apply quiet_refl.
  - left. now split.
Qed.

Lemma control_cycle_at r temp s :
  distinct (keys (temperatures s)) = true ->
  get r (temperatures s) = Some temp ->
  let s' := state_of (control_cycle backend s) in
  exists s1, quiet r s s1 /\
    (s' = s1 \/ quiet r (state_of (loop_body backend r temp s1)) s').
Proof.
  intros Hd Hg. unfold control_cycle.
  destruct (get_split r temp _ Hg) as (d1 & d2 & E & H1).
  rewrite E in Hd |- *. apply distinct_keys_split in Hd.
  destruct (for_items_at d1 r temp d2 s H1 Hd) as (s1 & Hq & [[_ H]|[_ H]]);
    exists s1; auto.
Qed.

(** When every room with a temperature is tracked the loop reaches [r]. *)
Lemma control_cycle_reaches r temp s :
  distinct (keys (temperatures s)) = true ->
  tracked (keys (temperatures s)) s = true ->
  get r (temperatures s) = Some temp ->
  exists s1, quiet r s s1 /\
    quiet r (state_of (loop_body backend r temp s1))
            (state_of (control_cycle backend s)).
Proof.
  intros Hd Ht Hg. unfold control_cycle.
  destruct (get_split r temp _ Hg) as (d1 & d2 & E & H1).
  assert (Hi : incl (keys d1) (keys (temperatures s))).
  { rewrite E. unfold keys. rewrite map_app. apply incl_appl, incl_refl. }
  rewrite E in Hd |- *. apply distinct_keys_split in Hd.
  destruct (for_items_at d1 r temp d2 s H1 Hd) as (s1 & Hq & [[H _]|[_ H]]).
  - destruct (for_items_done _ d1 s Ht Hi) as [s0 E0]. congruence.
  - exists s1. auto.
Qed.

Lemma control_cycle_faulted r s :
  get r (sensor_error s) = Some true \/ get r (api_error s) = Some true ->
  quiet r s (state_of (control_cycle backend s)).
Proof. apply for_items_faulted. Qed.

Lemma control_cycles_faulted r n s :
  get r (api_error s) = Some true ->
  quiet r s (control_cycles backend n s).
Proof.
  revert s. induction n as [|n IH]; intros s H; simpl.
  - apply quiet_refl.
  - pose proof (control_cycle_faulted r s (or_intror H)) as Hq.
    eapply quiet_trans; [exact Hq|]. apply IH.
    destruct (view_fields r _ _ (quiet_view _ _ _ Hq)) as (_ & _ & _ & _ & ->).
    exact H.
Qed.

End ServiceFacts.

(** ** Ingestion *)

Section IngestionFacts.

Variable py_float : string -> option float.

Lemma addressed_to_room r msg :
  addressed_to r msg = true -> topic_room (topic msg) = Some r.
Proof.
  unfold addressed_to. destruct (topic_room (topic msg)); [|discriminate].
  intros H. apply String.eqb_eq in H. now subst.
Qed.

(** The two ways a reading is invalid. *)
Lemma is_valid_reading_false msg :
  is_valid_reading py_float msg = false <->
  py_float (payload msg) = None \/
  exists temp, py_float (payload msg) = Some temp /\ in_range temp = false.
Proof.
  unfold is_valid_reading. destruct (py_float (payload msg)) as [temp|].
  - split; [intros H; right; eauto | intros [H|(t & [= <-] & H)]; congruence].
  - split; [now left | reflexivity].
Qed.

Lemma on_message_invalid msg s :
  is_valid_reading py_float msg = false ->
  on_message py_float msg s = on_message_except msg s.
Proof.
  unfold on_message, is_valid_reading.
  destruct (topic_room (topic msg)); [|reflexivity].
  destruct (py_float (payload msg)); [|reflexivity].
  now intros ->.
Qed.

Lemma on_message_valid r msg s :
  addressed_to r msg = true -> is_valid_reading py_float msg = true ->
  exists temp, py_float (payload msg) = Some temp /\ in_range temp = true /\
    on_message py_float msg s =
    set_sensor_error r false (set_invalid_count r 0 (set_temperature r temp s)).
Proof.
  intros Ha Hv. apply addressed_to_room in Ha.
  unfold on_message, is_valid_reading in *. rewrite Ha.
  destruct (py_float (payload msg)) as [temp|]; [|discriminate].
  exists temp. now rewrite Hv.
Qed.

Lemma on_message_except_known r msg s c :
  addressed_to r msg = true -> get r (invalid_counts s) = Some c ->
  let s' := on_message_except msg s in
  temperatures s' = temperatures s /\
  get r (invalid_counts s') = Some (c + 1) /\
  (c + 1 >= Invalid_Data_Limit -> get r (sensor_error s') = Some true).
Proof.
  intros Ha Hc. apply addressed_to_room in Ha.
  unfold on_message_except. rewrite Ha, Hc. cbv zeta.
  destruct (c + 1 >=? Invalid_Data_Limit) eqn:E; simpl;
    rewrite get_set_same; repeat split.
  - intros _. apply get_set_same.
  - rewrite Z.geb_leb in E. apply Z.leb_gt in E. lia.
Qed.

(** A run of invalid readings for a tracked room: each one counts, and the
    last one raises the flag once the limit is reached. *)
Lemma invalid_run r msgs s c :
  get r (invalid_counts s) = Some c ->
  forallb (invalid_for py_float r) msgs = true ->
  let s' := on_messages py_float msgs s in
  get r (invalid_counts s') = Some (c + Z.of_nat (List.length msgs)) /\
  (msgs <> [] -> c + Z.of_nat (List.length msgs) >= Invalid_Data_Limit ->
   get r (sensor_error s') = Some true).
Proof.
  intros Hc. unfold on_messages. induction msgs as [|m msgs IH] using rev_ind.
  - intros _. simpl. rewrite Z.add_0_r. split; [exact Hc | congruence].
  - rewrite forallb_app, fold_left_app, length_app. simpl.
    rewrite !andb_true_iff. intros (Hall & Hm & _).
    unfold invalid_for in Hm. apply andb_true_iff in Hm.
    destruct Hm as [Ha Hv]. apply negb_true_iff in Hv.
    destruct (IH Hall) as [Hcount _].
    rewrite on_message_invalid by exact Hv.
    destruct (on_message_except_known r m _ _ Ha Hcount) as (_ & Hc' & Hf).
    replace (c + Z.of_nat (List.length msgs + 1))
      with (c + Z.of_nat (List.length msgs) + 1) by lia.
    split; [exact Hc' | intros _; exact Hf].
Qed.

End IngestionFacts.

(** * Properties of the service *)

(** ** Ingestion *)

(** C2, as the code behaves.  The claim is that no message ever adds a
    tracked room.  A well-formed in-range reading whose topic names a room
    outside [ROOMS] does: the [try] block of [on_message] assigns
    [temperatures], [invalid_counts] and [sensor_error] at that room without
    the membership test its [except] branch makes, so three of the five
    dictionaries get a sixth key (and the next loop pass stops on it with a
    [KeyError] at [api_error]). *)
Theorem unknown_room_reading_is_tracked :
  let s' := on_message decimal_float (reading "nonexistent" "22") init in
  mem "nonexistent" (temperatures init) = false /\
  keys (temperatures s') = (ROOMS ++ ["nonexistent"])%list /\
  keys (invalid_counts s') = (ROOMS ++ ["nonexistent"])%list /\
  keys (sensor_error s') = (ROOMS ++ ["nonexistent"])%list /\
  keys (api_error s') = ROOMS /\
  raised (control_cycle backend_inactive s') = true.
Proof. vm_compute. repeat split. Qed.

(** C3.  For a room the service tracks, a run of invalid readings as long
    as [Invalid_Data_Limit] (or longer), started at a non-negative counter,
    leaves [sensor_error] true; the valid reading that follows sets
    [sensor_error] false and the counter to 0. *)
Theorem invalid_run_sets_sensor_fault_and_valid_clears :
  forall py_float r msgs msg s c,
    get r (invalid_counts s) = Some c -> 0 <= c ->
    forallb (invalid_for py_float r) msgs = true ->
    Invalid_Data_Limit <= Z.of_nat (List.length msgs) ->
    addressed_to r msg = true -> is_valid_reading py_float msg = true ->
    let s1 := on_messages py_float msgs s in
    let s2 := on_message py_float msg s1 in
    get r (sensor_error s1) = Some true /\
    get r (sensor_error s2) = Some false /\
    get r (invalid_counts s2) = Some 0.
Proof.
  intros py_float r msgs msg s c Hc Hpos Hinv Hlen Ha Hv s1 s2.
  destruct (invalid_run py_float r msgs s c Hc Hinv) as [_ Hf].
  split.
  - apply Hf; [|lia].
    intros ->. unfold Invalid_Data_Limit in Hlen. simpl in Hlen. lia.
  - subst s2. destruct (on_message_valid py_float r msg s1 Ha Hv)
      as (temp & _ & _ & ->).
    simpl. now rewrite !get_set_same.
Qed.

Lemma invalid_run_sets_sensor_fault_and_valid_clears_witness :
  let msgs := [reading "room2" "not_a_number"; reading "room2" "60";
               reading "room2" "-10"] in
  let s1 := on_messages decimal_float msgs init in
  let s2 := on_message decimal_float (reading "room2" "22") s1 in
  get "room2" (sensor_error s1) = Some true /\
  get "room2" (sensor_error s2) = Some false /\
  get "room2" (invalid_counts s2) = Some 0.
Proof.
  apply (invalid_run_sets_sensor_fault_and_valid_clears
           decimal_float "room2" _ _ init 0);
    solve [reflexivity | vm_compute; congruence].
Defined.

(** C7.  For a room the service tracks, a reading whose payload does not
    parse and a reading whose value lies outside [0, 50] both leave every
    temperature as it was and add exactly 1 to the room's counter, and the
    state they produce is the same: that of the [except] branch, which does
    not look at the payload. *)
Theorem invalid_reading_counted_once :
  forall py_float r msg s c,
    get r (invalid_counts s) = Some c ->
    addressed_to r msg = true ->
    (py_float (payload msg) = None \/
     exists temp, py_float (payload msg) = Some temp /\ in_range temp = false) ->
    let s' := on_message py_float msg s in
    temperatures s' = temperatures s /\
    get r (invalid_counts s') = Some (c + 1) /\
    forall msg',
      topic msg' = topic msg ->
      (py_float (payload msg') = None \/
       exists temp, py_float (payload msg') = Some temp /\ in_range temp = false) ->
      on_message py_float msg' s = s'.
Proof.
  intros py_float r msg s c Hc Ha Hinv s'. subst s'.
  apply is_valid_reading_false in Hinv.
  rewrite on_message_invalid by exact Hinv.
  destruct (on_message_except_known r msg s c Ha Hc) as (Ht & Hn & _).
  repeat split; [exact Ht | exact Hn |].
  intros msg' Htopic Hinv'. apply is_valid_reading_false in Hinv'.
  rewrite on_message_invalid by exact Hinv'.
  unfold on_message_except. now rewrite Htopic.
Qed.

Lemma invalid_reading_counted_once_witness :
  let s := set_temperature "room2" 22%float init in
  let s' := on_message decimal_float (reading "room2" "not_a_number") s in
  temperatures s' = temperatures s /\
  get "room2" (invalid_counts s') = Some (0 + 1) /\
  on_message decimal_float (reading "room2" "60") s = s'.
Proof.
  pose proof (invalid_reading_counted_once decimal_float "room2"
                (reading "room2" "not_a_number")
                (set_temperature "room2" 22%float init) 0
                eq_refl eq_refl (or_introl eq_refl)) as H.
  destruct H as (Ht & Hc & Hsame).
  split; [exact Ht | split; [exact Hc|]].
  apply Hsame; [reflexivity|].
  right. exists 60%float. split; reflexivity.
Defined.

(** C8.  A valid reading addressed to room X leaves all five fields of any
    other room Y as they were. *)
Theorem valid_reading_touches_one_room :
  forall py_float X Y msg s,
    X <> Y ->
    addressed_to X msg = true -> is_valid_reading py_float msg = true ->
    room_view Y (on_message py_float msg s) = room_view Y s.
Proof.
  intros py_float X Y msg s Hne Ha Hv.
  destruct (on_message_valid py_float X msg s Ha Hv) as (temp & _ & _ & ->).
  unfold room_view. simpl.
  now rewrite !get_set_other by congruence.
Qed.

Lemma valid_reading_touches_one_room_witness :
  room_view "room2" (on_message decimal_float (reading "room1" "31.5") init) =
  room_view "room2" init.
Proof.
  apply (valid_reading_touches_one_room decimal_float "room1" "room2");
    [discriminate | reflexivity | reflexivity].
Defined.

(** ** Backend client *)

(** C4.  A poll or a command for room [r] whose attempts are all answered
    by a retried exception sets [api_error] of [r] and leaves every other
    room as it was; such a poll also leaves [hvac_active] of [r] as it was.
    A poll or a command that gets a good answer within the limit sets
    [api_error] of [r] to false, whatever it was. *)
Theorem retry_exhaustion_sets_and_success_clears_backend_fault :
  forall backend r s,
    (poll_exhausts backend s = true ->
     let s' := poll_hvac_status backend r s in
     get r (api_error s') = Some true /\
     get r (hvac_active s') = get r (hvac_active s) /\
     forall r', r' <> r -> room_view r' s' = room_view r' s) /\
    (send_exhausts backend s = true ->
     forall activate,
       let s' := send_hvac_command backend r activate s in
       get r (api_error s') = Some true /\
       forall r', r' <> r -> room_view r' s' = room_view r' s) /\
    (poll_succeeds backend s = true ->
     get r (api_error (poll_hvac_status backend r s)) = Some false) /\
    (send_succeeds backend s = true ->
     forall activate,
       get r (api_error (send_hvac_command backend r activate s)) = Some false).
Proof.
  intros backend r s. repeat apply conj.
  - intros H s'. subst s'. unfold poll_hvac_status.
    destruct (poll_attempts_exhausted backend _ r s H) as [Ha Hh].
    split; [exact Ha|]. split; [now rewrite Hh|].
    intros r' Hne. apply quiet_view. now apply quiet_poll_attempts.
  - intros H activate s'. subst s'. unfold send_hvac_command. split.
    + now apply send_attempts_exhausted.
    + intros r' Hne. apply quiet_view. now apply quiet_send_attempts.
  - intros H. now apply poll_attempts_succeeds.
  - intros H activate. now apply send_attempts_succeeds.
Qed.

Lemma retry_exhaustion_sets_and_success_clears_backend_fault_witness :
  let s1 := poll_hvac_status backend_recovers "room3" init in
  let s2 := send_hvac_command backend_down "room3" true init in
  (get "room3" (api_error s1) = Some true /\
   get "room3" (hvac_active s1) = get "room3" (hvac_active init) /\
   room_view "room1" s1 = room_view "room1" init) /\
  (get "room3" (api_error s2) = Some true /\
   room_view "room1" s2 = room_view "room1" init) /\
  get "room3" (api_error (poll_hvac_status backend_recovers "room3" s1)) = Some false /\
  get "room3" (api_error (send_hvac_command backend_recovers "room3" true s1)) = Some false.
Proof.
  destruct (retry_exhaustion_sets_and_success_clears_backend_fault
              backend_recovers "room3" init) as (Hpoll & _ & _ & _).
  destruct (retry_exhaustion_sets_and_success_clears_backend_fault
              backend_down "room3" init) as (_ & Hsend & _ & _).
  destruct (retry_exhaustion_sets_and_success_clears_backend_fault
              backend_recovers "room3"
              (poll_hvac_status backend_recovers "room3" init))
    as (_ & _ & Hpoll_ok & Hsend_ok).
  specialize (Hpoll eq_refl). specialize (Hsend eq_refl true).
  specialize (Hpoll_ok eq_refl). specialize (Hsend_ok eq_refl true).
  cbv zeta in *.
  destruct Hpoll as (P1 & P2 & P3). destruct Hsend as (S1 & S2).
  repeat apply conj; auto.
Defined.

(** ** Control loop *)

(** C5.  A room with [sensor_error] or [api_error] set goes through a loop
    pass with no request made about it and its [hvac_active] entry as it
    was, whatever the temperatures are. *)
Theorem faulted_room_is_skipped :
  forall backend r s,
    get r (sensor_error s) = Some true \/ get r (api_error s) = Some true ->
    let s' := state_of (control_cycle backend s) in
    get r (hvac_active s') = get r (hvac_active s) /\
    exists new,
      http_log s' = (http_log s ++ new)%list /\ calls_for r new = [].
Proof.
  intros backend r s H s'.
  destruct (control_cycle_faulted backend r s H) as [Hv Hl].
  split; [|exact Hl]. now apply view_fields in Hv.
Qed.

Lemma faulted_room_is_skipped_witness :
  let s := set_sensor_error "room1" true
             (set_temperature "room1" 45%float
                (initial_polls backend_inactive init)) in
  let s' := state_of (control_cycle backend_inactive s) in
  get "room1" (hvac_active s') = get "room1" (hvac_active s) /\
  exists new,
    http_log s' = (http_log s ++ new)%list /\ calls_for "room1" new = [].
Proof.
  apply (faulted_room_is_skipped backend_inactive "room1").
  left. reflexivity.
Defined.

(** C6.  A room without fault whose [hvac_active] entry already is the
    state its temperature asks for goes through a loop pass with no request
    made about it and all its five fields as they were. *)
Theorem steady_room_is_left_alone :
  forall backend r temp s,
    distinct (keys (temperatures s)) = true ->
    get r (temperatures s) = Some temp ->
    get r (sensor_error s) = Some false ->
    get r (api_error s) = Some false ->
    get r (hvac_active s) = Some (Some (should_activate temp)) ->
    let s' := state_of (control_cycle backend s) in
    room_view r s' = room_view r s /\
    exists new,
      http_log s' = (http_log s ++ new)%list /\ calls_for r new = [].
Proof.
  intros backend r temp s Hd Ht Hs Ha Hh s'.
  change (quiet r s s').
  destruct (control_cycle_at backend r temp s Hd Ht) as (s1 & Hq & [E|Hrest]).
  - subst s'. now rewrite E.
  - destruct (view_fields r s s1 (quiet_view _ _ _ Hq))
      as (_ & Eh & _ & Es & Ea).
    rewrite loop_body_steady in Hrest by congruence.
    eapply quiet_trans; [exact Hq | exact Hrest].
Qed.

Lemma steady_room_is_left_alone_witness :
  let s := set_hvac_active "room1" (Some true)
             (set_temperature "room1" 35%float
                (initial_polls backend_inactive init)) in
  let s' := state_of (control_cycle backend_down s) in
  room_view "room1" s' = room_view "room1" s /\
  exists new,
    http_log s' = (http_log s ++ new)%list /\ calls_for "room1" new = [].
Proof.
  apply (steady_room_is_left_alone backend_down "room1" 35%float);
    reflexivity.
Defined.

(** C9.  [__init__] gives every configured room the temperature 0.0, and
    0.0 is not above the threshold.  So a room without fault that still
    holds 0.0 and whose [hvac_active] entry is [None] or [True] is sent a
    "deactivate" command by the loop pass (every room with a temperature
    being tracked, as it is from start-up on), and ends the pass with
    [hvac_active] false. *)
Theorem unread_room_is_deactivated :
  (forall r, In r ROOMS -> get r (temperatures init) = Some 0%float) /\
  should_activate 0%float = false /\
  forall backend r s a,
    distinct (keys (temperatures s)) = true ->
    tracked (keys (temperatures s)) s = true ->
    get r (temperatures s) = Some 0%float ->
    get r (sensor_error s) = Some false ->
    get r (api_error s) = Some false ->
    get r (hvac_active s) = Some a -> a <> Some false ->
    let s' := state_of (control_cycle backend s) in
    get r (hvac_active s') = Some (Some false) /\
    exists before after,
      http_log s' =
      (http_log s ++ before ++ POST_command r "deactivate" :: after)%list.
Proof.
  split; [|split; [reflexivity|]].
  - intros r Hin. simpl in Hin.
    repeat (destruct Hin as [<-|Hin]; [reflexivity|]). destruct Hin.
  - intros backend r s a Hd Htr Ht Hs Ha Hh Hne s'.
    destruct (control_cycle_reaches backend r _ s Hd Htr Ht)
      as (s1 & Hq & Hrest).
    fold s' in Hrest.
    destruct (view_fields r s s1 (quiet_view _ _ _ Hq))
      as (_ & Eh & _ & Es & Ea).
    rewrite (loop_body_command backend r 0%float s1 a) in Hrest
      by (try congruence; exact Hne).
    change (should_activate 0%float) with false in Hrest. simpl in Hrest.
    destruct Hrest as [Hv (new2 & L2 & _)].
    destruct Hq as [_ (new1 & L1 & _)].
    destruct (send_hvac_command_log backend r false s1) as [more Lc].
    split.
    + apply view_fields in Hv. destruct Hv as (_ & -> & _).
      simpl. apply get_set_same.
    + exists new1, (more ++ new2)%list.
      rewrite L2. simpl. rewrite Lc, L1.
      now rewrite <- !app_assoc.
Qed.

Lemma unread_room_is_deactivated_witness :
  let s := initial_polls backend_active init in
  let s' := state_of (control_cycle backend_active s) in
  get "room1" (hvac_active s') = Some (Some false) /\
  exists before after,
    http_log s' =
    (http_log s ++ before ++ POST_command "room1" "deactivate" :: after)%list.
Proof.
  destruct unread_room_is_deactivated as (_ & _ & H).
  apply (H backend_active "room1" (initial_polls backend_active init) (Some true));
    solve [reflexivity | discriminate].
Defined.

(** C10.  Once [api_error] is set for a room, any number of loop passes
    makes no request about that room and leaves [api_error] set: the loop
    alone never clears the flag. *)
Theorem backend_fault_survives_control_cycles :
  forall backend r n s,
    get r (api_error s) = Some true ->
    let s' := control_cycles backend n s in
    get r (api_error s') = Some true /\
    exists new,
      http_log s' = (http_log s ++ new)%list /\ calls_for r new = [].
Proof.
  intros backend r n s H s'. subst s'.
  destruct (control_cycles_faulted backend r n s H) as [Hv Hl].
  split; [|exact Hl].
  apply view_fields in Hv. destruct Hv as (_ & _ & _ & _ & ->). exact H.
Qed.

Lemma backend_fault_survives_control_cycles_witness :
  let s := send_hvac_command backend_down "room4" true
             (set_temperature "room4" 45%float init) in
  let s' := control_cycles backend_active 7 s in
  get "room4" (api_error s') = Some true /\
  exists new,
    http_log s' = (http_log s ++ new)%list /\ calls_for "room4" new = [].
Proof.
  apply (backend_fault_survives_control_cycles backend_active "room4" 7).
  reflexivity.
Defined.

(** C1, the claim as stated, fails.  Room 1 is polled inactive, reads 35
    and the backend then refuses every request: the pass sets [api_error]
    and nevertheless stores [True] in [hvac_active], and the next pass makes
    no request at all. *)
Lemma failed_command_changes_commanded_state :
  let s := on_message decimal_float (reading "room1" "35")
             (initial_polls backend_fails_after_polls init) in
  let s' := state_of (control_cycle backend_fails_after_polls s) in
  get "room1" (api_error s) = Some false /\
  get "room1" (api_error s') = Some true /\
  calls_for "room1" (skipn (List.length (http_log s)) (http_log s')) =
    [POST_command "room1" "activate"; POST_command "room1" "activate";
     POST_command "room1" "activate"] /\
  get "room1" (hvac_active s) = Some (Some false) /\
  get "room1" (hvac_active s') = Some (Some true) /\
  get "room1" (hvac_active s') <> get "room1" (hvac_active s) /\
  http_log (state_of (control_cycle backend_fails_after_polls s')) = http_log s'.
Proof. vm_compute. repeat split. discriminate. Qed.

(** C1, amended.  When the loop body sends the command a room needs and
    every attempt fails, [api_error] is set for the room; the flag then
    makes the next pass, and every pass after it, skip the room: the flag
    stays set and no request is made for the room, so the loop does not
    send the command again. *)
Theorem failed_command_sets_fault_and_is_not_retried :
  forall backend r temp s a,
    get r (sensor_error s) = Some false ->
    get r (api_error s) = Some false ->
    get r (hvac_active s) = Some a -> a <> Some (should_activate temp) ->
    send_exhausts backend s = true ->
    exists s',
      loop_body backend r temp s = Done s' /\
      get r (api_error s') = Some true /\
      forall n,
        let s'' := control_cycles backend (S n) s' in
        get r (api_error s'') = Some true /\
        exists new,
          http_log s'' = (http_log s' ++ new)%list /\ calls_for r new = [].
Proof.
  intros backend r temp s a Hs Ha Hh Hne Hex.
  eexists. split; [now apply (loop_body_command backend r temp s a)|].
  assert (Hf : get r (api_error
                        (set_hvac_active r (Some (should_activate temp))
                           (send_hvac_command backend r (should_activate temp) s)))
               = Some true).
  { simpl. unfold send_hvac_command. now apply send_attempts_exhausted. }
  split; [exact Hf|].
  intros n s''. subst s''.
  destruct (control_cycles_faulted backend r (S n) _ Hf) as [Hv Hl].
  split; [|exact Hl].
  apply view_fields in Hv. destruct Hv as (_ & _ & _ & _ & ->). exact Hf.
Qed.

Lemma failed_command_sets_fault_and_is_not_retried_witness :
  let s := on_message decimal_float (reading "room1" "35")
             (initial_polls backend_fails_after_polls init) in
  exists s',
    loop_body backend_fails_after_polls "room1" 35%float s = Done s' /\
    get "room1" (api_error s') = Some true /\
    forall n,
      let s'' := control_cycles backend_fails_after_polls (S n) s' in
      get "room1" (api_error s'') = Some true /\
      exists new,
        http_log s'' = (http_log s' ++ new)%list /\ calls_for "room1" new = [].
Proof.
  apply (failed_command_sets_fault_and_is_not_retried
           backend_fails_after_polls "room1" 35%float _ (Some false));
    solve [reflexivity | discriminate].
Defined.

(** ** The invariants the loop statements assume hold along a run *)

(** X17.  Ingestion never touches the backend side: a message, whatever
    it is, leaves the API flags and the commanded states as they were and
    makes no request. *)
Lemma on_message_keeps_backend_state :
  forall py_float msg s,
    let s' := on_message py_float msg s in
    api_error s' = api_error s /\ hvac_active s' = hvac_active s /\
    http_log s' = http_log s.
Proof.
  intros py_float msg s. unfold on_message, on_message_except.
  destruct (topic_room (topic msg)) as [room|]; [|repeat split].
  destruct (py_float (payload msg)) as [temp|];
    [destruct (negb (in_range temp)); [|repeat split]|];
    (destruct (get room (invalid_counts s)) as [c|]; [|repeat split]);
    destruct (c + 1 >=? Invalid_Data_Limit); repeat split.
Qed.

Lemma on_message_keeps_distinct :
  forall py_float msg s,
    distinct (keys (temperatures s)) = true ->
    distinct (keys (temperatures (on_message py_float msg s))) = true.
Proof.
  intros py_float msg s H. unfold on_message, is_valid_reading.
  destruct (topic_room (topic msg)) as [room|] eqn:Er.
  - destruct (py_float (payload msg)) as [temp|] eqn:Ep.
    + destruct (in_range temp) eqn:Ei; simpl.
      * now apply distinct_keys_set.
      * assert (Ha : addressed_to room msg = true)
          by (unfold addressed_to; rewrite Er; apply String.eqb_refl).
        unfold on_message_except. rewrite Er.
        destruct (get room (invalid_counts s)) as [c|]; [|exact H].
        now destruct (c + 1 >=? Invalid_Data_Limit).
    + unfold on_message_except. rewrite Er.
      destruct (get room (invalid_counts s)) as [c|]; [|exact H].
      now destruct (c + 1 >=? Invalid_Data_Limit).
  - unfold on_message_except. now rewrite Er.
Qed.

Lemma control_cycle_keeps_temperatures :
  forall backend s,
    temperatures (state_of (control_cycle backend s)) = temperatures s.
Proof.
  intros backend s. unfold control_cycle. generalize (temperatures s) at 1.
  intros items. revert s.
  induction items as [|[room temp] items IH]; intros s; simpl; [reflexivity|].
  assert (Hb : temperatures (state_of (loop_body backend room temp s))
               = temperatures s).
  { unfold loop_body.
    destruct (get room (sensor_error s)) as [[|]|]; try reflexivity.
    destruct (get room (api_error s)) as [[|]|]; try reflexivity.
    destruct (get room (hvac_active s)) as [active|]; try reflexivity.
    destruct (should_activate temp && is_not true active); simpl;
      [apply send_hvac_command_fields|].
    destruct (negb (should_activate temp) && is_not false active); simpl;
      [apply send_hvac_command_fields | reflexivity]. }
  destruct (loop_body backend room temp s) as [s'|s']; simpl in *;
    [now rewrite IH | exact Hb].
Qed.

(** After start-up, whatever the backend answered, the state is one the
    loop statements apply to. *)
Lemma startup_state_well_formed :
  forall backend,
    let s := initial_polls backend init in
    temperatures s = temperatures init /\
    distinct (keys (temperatures s)) = true /\
    tracked (keys (temperatures s)) s = true.
Proof.
  intros backend. cbv zeta.
  assert (Hstep : forall room s,
            temperatures (poll_hvac_status backend room s) = temperatures s /\
            (tracked ROOMS s = true ->
             tracked ROOMS (poll_hvac_status backend room s) = true)).
  { intros room s. unfold poll_hvac_status.
    destruct (poll_attempts_fields backend API_Rerty_Limit room s)
      as (Et & _ & Es & Hh & Ha).
    split; [exact Et|]. unfold tracked. rewrite !forallb_forall.
    intros H k Hk. specialize (H k Hk). rewrite Es.
    apply andb_true_iff in H. destruct H as [H H3].
    apply andb_true_iff in H. destruct H as [H1 H2].
    now rewrite H1, (Ha k H2), (Hh k H3). }
  unfold initial_polls.
  assert (Hall : forall rooms s,
            temperatures (fold_left (fun s room => poll_hvac_status backend room s)
                            rooms s) = temperatures s /\
            (tracked ROOMS s = true ->
             tracked ROOMS (fold_left (fun s room => poll_hvac_status backend room s)
                              rooms s) = true)).
  { induction rooms as [|room rooms IH]; intros s; simpl; [tauto|].
    destruct (IH (poll_hvac_status backend room s)) as [E1 T1].
    destruct (Hstep room s) as [E2 T2].
    split; [congruence | auto]. }
  destruct (Hall ROOMS init) as [E T].
  rewrite E. repeat split. apply T. reflexivity.
Qed.

(** ** The scenarios of the test suite *)

Example test_on_message_valid_temperature :
  let s := on_message decimal_float (reading "room1" "31.5") init in
  get "room1" (temperatures s) = Some 31.5%float /\
  get "room1" (invalid_counts s) = Some 0.
Proof. split; reflexivity. Qed.

Example test_on_message_extreme_temperature :
  let s := set_temperature "room1" 15%float init in
  temperatures (on_message decimal_float (reading "room1" "-10") s) = temperatures s /\
  temperatures (on_message decimal_float (reading "room1" "100") s) = temperatures s.
Proof. split; reflexivity. Qed.

Example test_on_message_invalid_topic :
  on_message decimal_float {| topic := "invalidtopic"; payload := "25" |} init = init.
Proof. reflexivity. Qed.

Example test_poll_hvac_status_active :
  get "room1" (hvac_active (poll_hvac_status backend_active "room1" init))
  = Some (Some true).
Proof. reflexivity. Qed.

Example test_poll_hvac_status_unexpected_status_string :
  get "room5" (hvac_active
                 (poll_hvac_status (fun _ => Ok (Some "weirdvalue")) "room5" init))
  = Some (Some false).
Proof. reflexivity. Qed.

Example test_send_hvac_command_activate :
  http_log (send_hvac_command backend_active "room1" true init)
  = [POST_command "room1" "activate"].
Proof. reflexivity. Qed.

(** * Further properties of the service *)

(** ** The backend client, by the replies it gets *)

Lemma replies_length backend n s : List.length (replies backend n s) = n.
Proof. unfold replies. now rewrite length_map, length_seq. Qed.

Lemma attempts_made_bounds retry l :
  l <> [] -> (1 <= attempts_made retry l <= List.length l)%nat.
Proof.
  induction l as [|x l IH]; [congruence|]. intros _. simpl.
  destruct (retry x); [|lia].
  destruct l as [|y l]; [simpl; lia|].
  assert (y :: l <> []) by discriminate. specialize (IH H). simpl in *. lia.
Qed.

Lemma send_attempts_by_replies backend n room command s :
  let retry := fun x => negb (is_ok x) in
  let rs := replies backend n s in
  send_attempts backend n room command s =
  set_api_error room (negb (ends_ok retry rs))
    (log_requests (repeat (POST_command room command) (attempts_made retry rs)) s).
Proof.
  cbv zeta. revert s. induction n as [|n IH]; intros s.
  - reflexivity.
  - rewrite (replies_S backend n (POST_command room command)). simpl.
    destruct (backend _); simpl; [reflexivity | apply IH | apply IH].
Qed.

(** X1.  A command is a function of the replies to its attempts: it logs
    one POST per attempt up to the first good answer, at least one and at
    most [API_Rerty_Limit], sets [api_error] of the room exactly when no
    attempt got a good answer, and writes nothing else (in particular not
    [hvac_active]). *)
Theorem send_hvac_command_by_replies :
  forall backend room (activate : bool) s,
    let retry := fun x => negb (is_ok x) in
    let rs := replies backend API_Rerty_Limit s in
    let q := POST_command room (if activate then "activate" else "deactivate") in
    send_hvac_command backend room activate s =
    set_api_error room (negb (ends_ok retry rs))
      (log_requests (repeat q (attempts_made retry rs)) s) /\
    (1 <= attempts_made retry rs <= API_Rerty_Limit)%nat.
Proof.
  intros backend room activate s retry rs q. split.
  - apply send_attempts_by_replies.
  - pose proof (attempts_made_bounds retry rs) as H.
    subst rs. rewrite replies_length in H. apply H.
    intros E. apply (f_equal (@List.length _)) in E.
    rewrite replies_length in E. discriminate.
Qed.

Lemma poll_attempts_by_replies backend n room s :
  let rs := replies backend n s in
  let logged := log_requests
                  (repeat (GET_status room) (attempts_made is_request_exception rs)) s in
  poll_attempts backend n room s =
  match first_final is_request_exception rs with
  | None => set_api_error room true logged
  | Some (Ok status) =>
      set_api_error room false
        (set_hvac_active room (Some (status_is_active status)) logged)
  | Some _ => logged
  end.
Proof.
  cbv zeta. revert s. induction n as [|n IH]; intros s.
  - reflexivity.
  - rewrite (replies_S backend n (GET_status room)). simpl.
    destruct (backend _); simpl; [reflexivity | apply IH | reflexivity].
Qed.

(** X2.  A status poll is a function of the replies to its attempts.  It
    logs one GET per attempt up to the first reply that is not a
    [RequestException] (at least one, at most [API_Rerty_Limit]).  If every
    reply is a [RequestException] it sets [api_error]; if the first other
    reply is a good answer it stores [status == "active"] and clears
    [api_error]; if it is another exception the poll ends at once and
    changes neither [hvac_active] nor [api_error]. *)
Theorem poll_hvac_status_by_replies :
  forall backend room s,
    let rs := replies backend API_Rerty_Limit s in
    let logged := log_requests
                    (repeat (GET_status room) (attempts_made is_request_exception rs)) s in
    poll_hvac_status backend room s =
    match first_final is_request_exception rs with
    | None => set_api_error room true logged
    | Some (Ok status) =>
        set_api_error room false
          (set_hvac_active room (Some (status_is_active status)) logged)
    | Some _ => logged
    end /\
    (1 <= attempts_made is_request_exception rs <= API_Rerty_Limit)%nat.
Proof.
  intros backend room s rs logged. split.
  - apply poll_attempts_by_replies.
  - pose proof (attempts_made_bounds is_request_exception rs) as H.
    subst rs. rewrite replies_length in H. apply H.
    intros E. apply (f_equal (@List.length _)) in E.
    rewrite replies_length in E. discriminate.
Qed.

(** ** The control loop *)

(** X3.  Convergence.  For a room without fault whose commanded state is
    not the one its temperature asks for, a first attempt that gets a good
    answer makes the loop body log exactly one POST with the matching
    command, store the wanted state and leave [api_error] false. *)
Theorem needed_command_sent_once_on_success :
  forall backend r temp s a,
    get r (sensor_error s) = Some false ->
    get r (api_error s) = Some false ->
    get r (hvac_active s) = Some a -> a <> Some (should_activate temp) ->
    is_ok (backend (List.length (http_log s))) = true ->
    let command := if should_activate temp then "activate" else "deactivate" in
    exists s',
      loop_body backend r temp s = Done s' /\
      http_log s' = (http_log s ++ [POST_command r command])%list /\
      get r (hvac_active s') = Some (Some (should_activate temp)) /\
      get r (api_error s') = Some false /\
      temperatures s' = temperatures s /\ invalid_counts s' = invalid_counts s /\
      sensor_error s' = sensor_error s.
Proof.
  intros backend r temp s a Hs Ha Hh Hne Hok command.
  eexists. split; [now apply (loop_body_command backend r temp s a)|].
  unfold send_hvac_command. change API_Rerty_Limit with (S 2).
  cbn [send_attempts]. destruct (backend _); try discriminate.
  simpl. now rewrite !get_set_same.
Qed.

Lemma needed_command_sent_once_on_success_witness :
  let s := set_temperature "room1" 35%float (initial_polls backend_inactive init) in
  exists s',
    loop_body backend_inactive "room1" 35%float s = Done s' /\
    http_log s' = (http_log s ++ [POST_command "room1" "activate"])%list /\
    get "room1" (hvac_active s') = Some (Some (should_activate 35%float)) /\
    get "room1" (api_error s') = Some false /\
    temperatures s' = temperatures s /\ invalid_counts s' = invalid_counts s /\
    sensor_error s' = sensor_error s.
Proof.
  apply (needed_command_sent_once_on_success backend_inactive "room1" 35%float
           _ (Some false)); solve [reflexivity | discriminate].
Defined.

Lemma http_log_log_requests qs s :
  http_log (log_requests qs s) = (http_log s ++ qs)%list.
Proof.
  revert s. induction qs as [|q qs IH]; intros s; simpl.
  - now rewrite app_nil_r.
  - unfold log_requests in IH. rewrite IH. simpl. now rewrite <- app_assoc.
Qed.

Lemma loop_body_fields backend room temp s :
  let s' := state_of (loop_body backend room temp s) in
  temperatures s' = temperatures s /\ invalid_counts s' = invalid_counts s /\
  sensor_error s' = sensor_error s.
Proof.
  unfold loop_body.
  destruct (get room (sensor_error s)) as [[|]|]; try (repeat split; fail).
  destruct (get room (api_error s)) as [[|]|]; try (repeat split; fail).
  destruct (get room (hvac_active s)) as [active|]; try (repeat split; fail).
  destruct (should_activate temp && is_not true active); simpl.
  - destruct (send_hvac_command_fields backend room true s) as (? & ? & ? & ? & ?).
    auto.
  - destruct (negb (should_activate temp) && is_not false active); simpl;
      [|repeat split].
    destruct (send_hvac_command_fields backend room false s) as (? & ? & ? & ? & ?).
    auto.
Qed.

Lemma for_items_fields backend items s :
  let s' := state_of (for_items backend items s) in
  temperatures s' = temperatures s /\ invalid_counts s' = invalid_counts s /\
  sensor_error s' = sensor_error s.
Proof.
  revert s. induction items as [|[room temp] items IH]; intros s; simpl.
  - repeat split.
  - pose proof (loop_body_fields backend room temp s) as Hb.
    destruct (loop_body backend room temp s) as [s1|s1]; simpl in *; [|exact Hb].
    destruct Hb as (E1 & E2 & E3). destruct (IH s1) as (F1 & F2 & F3).
    rewrite F1, F2, F3. auto.
Qed.

(** X4.  The control loop never writes what ingestion owns: after any
    number of passes the temperatures, the invalid-reading counters and the
    sensor flags are the dictionaries they were. *)
Theorem control_loop_keeps_ingestion_state :
  forall backend n s,
    let s' := control_cycles backend n s in
    temperatures s' = temperatures s /\ invalid_counts s' = invalid_counts s /\
    sensor_error s' = sensor_error s.
Proof.
  intros backend n. induction n as [|n IH]; intros s; simpl.
  - repeat split.
  - destruct (IH (state_of (control_cycle backend s))) as (E1 & E2 & E3).
    destruct (for_items_fields backend (temperatures s) s) as (F1 & F2 & F3).
    unfold control_cycle in *. rewrite E1, E2, E3. auto.
Qed.

Lemma loop_body_requests backend ks room temp s :
  In room ks ->
  exists new,
    http_log (state_of (loop_body backend room temp s)) = (http_log s ++ new)%list /\
    forallb (loop_command ks) new = true.
Proof.
  intros Hin.
  assert (Hk : existsb (String.eqb room) ks = true).
  { apply existsb_exists. exists room. split; [exact Hin | apply String.eqb_refl]. }
  assert (Hsend : forall b, exists new,
            http_log (set_hvac_active room (Some b)
                        (send_hvac_command backend room b s))
            = (http_log s ++ new)%list /\ forallb (loop_command ks) new = true).
  { intros b. unfold send_hvac_command. rewrite send_attempts_by_replies.
    eexists. split; [apply http_log_log_requests|].
    apply forallb_forall. intros q Hq. apply repeat_spec in Hq. subst q.
    simpl. rewrite Hk. now destruct b. }
  assert (Hnone : exists new, http_log s = (http_log s ++ new)%list /\
                              forallb (loop_command ks) new = true).
  { exists []. now rewrite app_nil_r. }
  unfold loop_body.
  destruct (get room (sensor_error s)) as [[|]|]; cbn [state_of]; auto.
  destruct (get room (api_error s)) as [[|]|]; cbn [state_of]; auto.
  destruct (get room (hvac_active s)) as [active|]; cbn [state_of]; auto.
  destruct (should_activate temp && is_not true active); cbn [state_of]; auto.
  destruct (negb (should_activate temp) && is_not false active);
    cbn [state_of]; auto.
Qed.

Lemma for_items_requests backend ks items s :
  incl (keys items) ks ->
  exists new,
    http_log (state_of (for_items backend items s)) = (http_log s ++ new)%list /\
    forallb (loop_command ks) new = true.
Proof.
  revert s. induction items as [|[room temp] items IH]; intros s Hi; simpl.
  - exists []. now rewrite app_nil_r.
  - destruct (loop_body_requests backend ks room temp s) as (n1 & L1 & F1).
    { apply Hi. now left. }
    destruct (loop_body backend room temp s) as [s1|s1]; simpl in *;
      [|now exists n1].
    destruct (IH s1) as (n2 & L2 & F2).
    { intros k Hk. apply Hi. now right. }
    exists (n1 ++ n2)%list. rewrite L2, L1, <- app_assoc, forallb_app, F1, F2.
    now split.
Qed.

(** X5.  Whatever the control loop sends is a command: over any number of
    passes every request it adds to the log is a POST of "activate" or
    "deactivate" for a room that has a temperature entry.  It never reads
    the status again. *)
Theorem control_loop_only_posts_commands :
  forall backend n s,
    exists new,
      http_log (control_cycles backend n s) = (http_log s ++ new)%list /\
      forallb (loop_command (keys (temperatures s))) new = true.
Proof.
  intros backend n. induction n as [|n IH]; intros s; simpl.
  - exists []. now rewrite app_nil_r.
  - destruct (for_items_requests backend (keys (temperatures s)) (temperatures s) s)
      as (n1 & L1 & F1); [apply incl_refl|].
    destruct (IH (state_of (control_cycle backend s))) as (n2 & L2 & F2).
    destruct (for_items_fields backend (temperatures s) s) as (E & _).
    unfold control_cycle in *. rewrite E in F2.
    exists (n1 ++ n2)%list. rewrite L2, L1, <- app_assoc, forallb_app, F1, F2.
    now split.
Qed.

Lemma distinct_cons_inv (k : string) ks :
  distinct (k :: ks) = true -> ~ In k ks /\ distinct ks = true.
Proof.
  intros H. pose proof H as H'. apply distinct_NoDup in H'.
  inversion H' as [|? ? Hn Hd]; subst. split; [exact Hn|].
  now apply distinct_NoDup.
Qed.

(** The loop body decides from what the state holds about its room. *)
Lemma loop_body_raised backend r temp s s' :
  loop_body backend r temp s = Raised s' -> s' = s.
Proof.
  unfold loop_body.
  destruct (get r (sensor_error s)) as [[|]|]; try congruence.
  destruct (get r (api_error s)) as [[|]|]; try congruence.
  destruct (get r (hvac_active s)) as [active|]; try congruence.
  destruct (should_activate temp && is_not true active); try congruence.
  destruct (negb (should_activate temp) && is_not false active); congruence.
Qed.

(** Once the body has run for a room, running it again in a state that
    holds the same about the room does nothing. *)
Lemma loop_body_again backend r temp s s1 sf :
  loop_body backend r temp s = Done s1 ->
  room_view r sf = room_view r s1 ->
  loop_body backend r temp sf = Done sf.
Proof.
  intros Hb Hv. apply view_fields in Hv. destruct Hv as (_ & Vh & _ & Vs & Va).
  unfold loop_body in Hb |- *.
  destruct (get r (sensor_error s)) as [[|]|] eqn:Es; try discriminate.
  { injection Hb as <-. now rewrite Vs, Es. }
  destruct (get r (api_error s)) as [[|]|] eqn:Ea; try discriminate.
  { injection Hb as <-. now rewrite Vs, Es, Va, Ea. }
  destruct (get r (hvac_active s)) as [active|] eqn:Eh; try discriminate.
  assert (Hsent : forall b, should_activate temp = b ->
            s1 = set_hvac_active r (Some b) (send_hvac_command backend r b s) ->
            match get r (sensor_error sf) with
            | Some true => Done sf
            | Some false =>
                match get r (api_error sf) with
                | Some true => Done sf
                | Some false =>
                    match get r (hvac_active sf) with
                    | Some active0 =>
                        if should_activate temp && is_not true active0
                        then Done (set_hvac_active r (Some true)
                                     (send_hvac_command backend r true sf))
                        else if negb (should_activate temp) && is_not false active0
                        then Done (set_hvac_active r (Some false)
                                     (send_hvac_command backend r false sf))
                        else Done sf
                    | None => Raised sf
                    end
                | None => Raised sf
                end
            | None => Raised sf
            end = Done sf).
  { intros b Eb ->.
    destruct (send_hvac_command_fields backend r b s) as (_ & _ & _ & Fs & (b' & Fa)).
    cbn [set_hvac_active sensor_error api_error hvac_active] in Vh, Vs, Va.
    rewrite Fs, Es in Vs. rewrite Fa, get_set_same in Va.
    rewrite get_set_same in Vh. rewrite Vs, Va, Vh. subst b.
    destruct b', (should_activate temp); reflexivity. }
  destruct (should_activate temp && is_not true active) eqn:E1.
  { injection Hb as <-. apply andb_true_iff in E1. now apply (Hsent true). }
  destruct (negb (should_activate temp) && is_not false active) eqn:E2.
  { injection Hb as <-. apply andb_true_iff in E2. destruct E2 as [E2 _].
    apply negb_true_iff in E2. now apply (Hsent false). }
  injection Hb as <-. now rewrite Vs, Es, Va, Ea, Vh, Eh, E1, E2.
Qed.

Lemma for_items_twice backend items s :
  distinct (keys items) = true ->
  let o := for_items backend items s in
  for_items backend items (state_of o) =
  if raised o then Raised (state_of o) else Done (state_of o).
Proof.
  revert s. induction items as [|[r temp] items IH]; intros s Hd; simpl.
  - reflexivity.
  - simpl in Hd. apply distinct_cons_inv in Hd. destruct Hd as [Hn Hd].
    destruct (loop_body backend r temp s) as [s1|s1] eqn:Eb.
    + pose proof (quiet_for_items backend r items s1 Hn) as Hq.
      rewrite (loop_body_again backend r temp s s1 _ Eb (quiet_view _ _ _ Hq)).
      apply IH, Hd.
    + apply loop_body_raised in Eb as E. subst s1. simpl. now rewrite Eb.
Qed.

(** X6.  A pass that follows a pass at once does nothing: whatever the
    backend answered in the first, and whatever it would answer now, the
    second pass makes no request and leaves the state as the first pass
    left it (and stops on a [KeyError] exactly if the first did). *)
Theorem second_pass_is_idle :
  forall backend s,
    distinct (keys (temperatures s)) = true ->
    let s1 := state_of (control_cycle backend s) in
    state_of (control_cycle backend s1) = s1 /\
    raised (control_cycle backend s1) = raised (control_cycle backend s).
Proof.
  intros backend s Hd s1. subst s1. unfold control_cycle.
  destruct (for_items_fields backend (temperatures s) s) as (-> & _).
  rewrite (for_items_twice backend (temperatures s) s Hd).
  now destruct (raised (for_items backend (temperatures s) s)).
Qed.

Lemma second_pass_is_idle_witness :
  let s := on_message decimal_float (reading "room1" "35")
             (initial_polls backend_fails_after_polls init) in
  let s1 := state_of (control_cycle backend_fails_after_polls s) in
  state_of (control_cycle backend_fails_after_polls s1) = s1 /\
  raised (control_cycle backend_fails_after_polls s1) =
  raised (control_cycle backend_fails_after_polls s).
Proof.
  apply (second_pass_is_idle backend_fails_after_polls). reflexivity.
Defined.

(** X7.  No [KeyError] in a tracked service: when every room with a
    temperature has its two flags and its commanded state, no pass raises,
    now or after any number of passes, and the rooms stay tracked. *)
Theorem tracked_service_never_raises :
  forall backend n s,
    tracked (keys (temperatures s)) s = true ->
    let s' := control_cycles backend n s in
    raised (control_cycle backend s') = false /\
    tracked (keys (temperatures s')) s' = true.
Proof.
  intros backend n. induction n as [|n IH]; intros s Ht; simpl.
  - split; [|exact Ht]. unfold control_cycle.
    destruct (for_items_done backend _ (temperatures s) s Ht (incl_refl _))
      as [s' ->]. reflexivity.
  - apply IH. unfold control_cycle.
    destruct (for_items_fields backend (temperatures s) s) as (-> & _).
    now apply tracked_for_items.
Qed.

Lemma tracked_service_never_raises_witness :
  let s' := control_cycles backend_recovers 4
              (on_message decimal_float (reading "room2" "41.5")
                 (initial_polls backend_recovers init)) in
  raised (control_cycle backend_recovers s') = false /\
  tracked (keys (temperatures s')) s' = true.
Proof.
  apply (tracked_service_never_raises backend_recovers 4). reflexivity.
Defined.

Lemma set_absent_appends {V : Type} k (v : V) d :
  mem k d = false -> set k v d = (d ++ [(k, v)])%list.
Proof.
  unfold mem. induction d as [|[k' v'] d IH]; simpl; [reflexivity|].
  destruct (String.eqb k k'); [discriminate|]. intros H. now rewrite IH.
Qed.

Lemma tracked_grows ks s s' :
  (forall k, mem k (sensor_error s) = true -> mem k (sensor_error s') = true) ->
  (forall k, mem k (api_error s) = true -> mem k (api_error s') = true) ->
  (forall k, mem k (hvac_active s) = true -> mem k (hvac_active s') = true) ->
  tracked ks s = true -> tracked ks s' = true.
Proof.
  intros Hs Ha Hh. unfold tracked. rewrite !forallb_forall.
  intros H k Hk. specialize (H k Hk).
  apply andb_true_iff in H. destruct H as [H H3].
  apply andb_true_iff in H. destruct H as [H1 H2].
  now rewrite (Hs k H1), (Ha k H2), (Hh k H3).
Qed.

(** A room that has a temperature and a sensor flag but no API flag stops
    the pass, and the pass leaves it so. *)
Lemma pass_stops_at_untracked_room backend T r temp s :
  temperatures s = (T ++ [(r, temp)])%list -> ~ In r (keys T) ->
  tracked (keys T) s = true ->
  get r (sensor_error s) = Some false -> get r (api_error s) = None ->
  let s' := state_of (control_cycle backend s) in
  raised (control_cycle backend s) = true /\
  temperatures s' = temperatures s /\ tracked (keys T) s' = true /\
  get r (sensor_error s') = Some false /\ get r (api_error s') = None.
Proof.
  intros Et Hn Ht Hs Ha. cbv zeta.
  destruct (for_items_done backend (keys T) T s Ht (incl_refl _)) as [s1 E1].
  pose proof (quiet_for_items backend r T s Hn) as Hq.
  pose proof (tracked_for_items backend (keys T) T s Ht) as Ht1.
  pose proof (for_items_fields backend T s) as (F1 & _).
  rewrite E1 in *. simpl in Hq, Ht1, F1.
  destruct (view_fields r s s1 (quiet_view _ _ _ Hq)) as (_ & _ & _ & Vs & Va).
  assert (Hc : control_cycle backend s = Raised s1).
  { unfold control_cycle. rewrite Et, for_items_app, E1. simpl.
    unfold loop_body. now rewrite Vs, Hs, Va, Ha. }
  rewrite Hc. simpl. rewrite Vs, Va, F1. auto.
Qed.

(** X8.  What the missing guard of the valid branch costs: once a valid
    reading has arrived for a room the service does not track, every pass
    of the control loop stops on a [KeyError] ([api_error] has no entry for
    the room), for as long as the service runs. *)
Theorem unknown_room_reading_stops_every_pass :
  forall py_float backend r msg s n,
    addressed_to r msg = true -> is_valid_reading py_float msg = true ->
    mem r (temperatures s) = false -> mem r (api_error s) = false ->
    tracked (keys (temperatures s)) s = true ->
    raised (control_cycle backend
              (control_cycles backend n (on_message py_float msg s))) = true.
Proof.
  intros py_float backend r msg s n Ha Hv Hmt Hma Ht.
  destruct (on_message_valid py_float r msg s Ha Hv) as (temp & _ & _ & ->).
  set (T := temperatures s).
  assert (Hinv : forall sx,
            temperatures sx = (T ++ [(r, temp)])%list ->
            tracked (keys T) sx = true ->
            get r (sensor_error sx) = Some false -> get r (api_error sx) = None ->
            raised (control_cycle backend (control_cycles backend n sx)) = true).
  { assert (Hn : ~ In r (keys T)).
    { intros Hin. apply mem_keys in Hin. subst T. congruence. }
    induction n as [|n IH]; intros sx E1 E2 E3 E4; simpl.
    - now apply (pass_stops_at_untracked_room backend T r temp sx).
    - destruct (pass_stops_at_untracked_room backend T r temp sx E1 Hn E2 E3 E4)
        as (_ & F1 & F2 & F3 & F4).
      apply IH; congruence. }
  apply Hinv; simpl.
  - now apply set_absent_appends.
  - revert Ht. apply tracked_grows; simpl; auto.
    intros k. apply mem_set_mono.
  - apply get_set_same.
  - unfold mem in Hma. now destruct (get r (api_error s)).
Qed.

Lemma unknown_room_reading_stops_every_pass_witness :
  raised (control_cycle backend_inactive
            (control_cycles backend_inactive 3
               (on_message decimal_float (reading "nonexistent" "22")
                  (initial_polls backend_inactive init)))) = true.
Proof.
  apply (unknown_room_reading_stops_every_pass decimal_float backend_inactive
           "nonexistent"); reflexivity.
Defined.

(** ** Ingestion *)

(** X9.  A message that cannot be charged to a tracked room changes
    nothing: a topic without a second segment, whatever the payload, or an
    invalid reading for a room that has no counter. *)
Theorem unchargeable_message_changes_nothing :
  forall py_float msg s,
    topic_room (topic msg) = None \/
    (is_valid_reading py_float msg = false /\
     exists r, topic_room (topic msg) = Some r /\ mem r (invalid_counts s) = false) ->
    on_message py_float msg s = s.
Proof.
  intros py_float msg s [H | (Hv & r & Hr & Hm)].
  - unfold on_message, on_message_except. now rewrite H.
  - rewrite on_message_invalid by exact Hv.
    unfold on_message_except. rewrite Hr. unfold mem in Hm.
    now destruct (get r (invalid_counts s)).
Qed.

Lemma unchargeable_message_changes_nothing_witness :
  on_message decimal_float {| topic := "temperature"; payload := "25" |} init = init /\
  on_message decimal_float (reading "lobby" "hot") init = init.
Proof.
  split.
  - apply unchargeable_message_changes_nothing. left. reflexivity.
  - apply unchargeable_message_changes_nothing. right.
    split; [reflexivity|]. exists "lobby". split; reflexivity.
Defined.

(** X10.  A message for a room that has its temperature, counter and
    sensor flag adds no key to any dictionary, valid or not; and when it is
    valid, the room then holds the value read, counter 0 and no sensor
    fault. *)
Theorem tracked_room_message_keeps_keys :
  forall py_float r msg s,
    addressed_to r msg = true ->
    mem r (temperatures s) = true -> mem r (invalid_counts s) = true ->
    mem r (sensor_error s) = true ->
    let s' := on_message py_float msg s in
    (keys (temperatures s') = keys (temperatures s) /\
     keys (hvac_active s') = keys (hvac_active s) /\
     keys (invalid_counts s') = keys (invalid_counts s) /\
     keys (sensor_error s') = keys (sensor_error s) /\
     keys (api_error s') = keys (api_error s)) /\
    forall temp,
      py_float (payload msg) = Some temp -> in_range temp = true ->
      get r (temperatures s') = Some temp /\
      get r (invalid_counts s') = Some 0 /\
      get r (sensor_error s') = Some false.
Proof.
  intros py_float r msg s Ha Ht Hc Hs s'. subst s'.
  destruct (is_valid_reading py_float msg) eqn:Hv.
  - destruct (on_message_valid py_float r msg s Ha Hv) as (temp & Ep & Er & ->).
    simpl. rewrite !keys_set_present by assumption. split; [repeat split|].
    intros temp' Ep' _. rewrite !get_set_same. split; [congruence | auto].
  - rewrite on_message_invalid by exact Hv. split.
    + apply addressed_to_room in Ha. unfold on_message_except. rewrite Ha.
      unfold mem in Hc. destruct (get r (invalid_counts s)) as [c|] eqn:Ec;
        [|discriminate].
      assert (Hc' : mem r (invalid_counts s) = true) by (unfold mem; now rewrite Ec).
      destruct (c + 1 >=? Invalid_Data_Limit); simpl;
        rewrite !keys_set_present by assumption; repeat split.
    + intros temp Ep Er. unfold is_valid_reading in Hv. rewrite Ep in Hv.
      congruence.
Qed.

Lemma tracked_room_message_keeps_keys_witness :
  let s' := on_message decimal_float (reading "room1" "31.5") init in
  (keys (temperatures s') = keys (temperatures init) /\
   keys (hvac_active s') = keys (hvac_active init) /\
   keys (invalid_counts s') = keys (invalid_counts init) /\
   keys (sensor_error s') = keys (sensor_error init) /\
   keys (api_error s') = keys (api_error init)) /\
  (get "room1" (temperatures s') = Some 31.5%float /\
   get "room1" (invalid_counts s') = Some 0 /\
   get "room1" (sensor_error s') = Some false).
Proof.
  pose proof (tracked_room_message_keeps_keys decimal_float "room1"
                (reading "room1" "31.5") init eq_refl eq_refl eq_refl eq_refl) as H.
  cbv zeta in H. destruct H as [Hk Hv]. split; [exact Hk|].
  apply Hv; reflexivity.
Defined.

(** X11.  No early fault: invalid readings for a tracked room that keep
    its counter below [Invalid_Data_Limit] leave a clear sensor flag
    clear. *)
Theorem short_invalid_run_raises_no_fault :
  forall py_float r msgs s c,
    get r (invalid_counts s) = Some c ->
    get r (sensor_error s) = Some false ->
    forallb (invalid_for py_float r) msgs = true ->
    c + Z.of_nat (List.length msgs) < Invalid_Data_Limit ->
    let s' := on_messages py_float msgs s in
    get r (sensor_error s') = Some false /\
    get r (invalid_counts s') = Some (c + Z.of_nat (List.length msgs)).
Proof.
  intros py_float r msgs. unfold on_messages.
  induction msgs as [|m msgs IH]; intros s c Hc Hs Hall Hlt; simpl.
  - rewrite Z.add_0_r. auto.
  - simpl in Hall. apply andb_true_iff in Hall. destruct Hall as [Hm Hall].
    unfold invalid_for in Hm. apply andb_true_iff in Hm. destruct Hm as [Ha Hv].
    apply negb_true_iff in Hv.
    assert (Hstep : get r (invalid_counts (on_message py_float m s)) = Some (c + 1) /\
                    get r (sensor_error (on_message py_float m s)) = Some false).
    { rewrite on_message_invalid by exact Hv.
      apply addressed_to_room in Ha. unfold on_message_except. rewrite Ha, Hc.
      destruct (c + 1 >=? Invalid_Data_Limit) eqn:E.
      - rewrite Z.geb_leb in E. apply Z.leb_le in E.
        simpl List.length in Hlt. lia.
      - simpl. now rewrite get_set_same. }
    destruct Hstep as [Hc' Hs'].
    simpl List.length in Hlt.
    destruct (IH _ (c + 1) Hc' Hs' Hall) as [R1 R2]; [lia|].
    split; [exact R1|]. rewrite R2. f_equal. lia.
Qed.

Lemma short_invalid_run_raises_no_fault_witness :
  let s' := on_messages decimal_float
              [reading "room3" "oops"; reading "room3" "70"] init in
  get "room3" (sensor_error s') = Some false /\
  get "room3" (invalid_counts s') = Some (0 + Z.of_nat 2).
Proof.
  apply (short_invalid_run_raises_no_fault decimal_float "room3"
           [reading "room3" "oops"; reading "room3" "70"] init 0);
    reflexivity.
Defined.

(** X12.  Only a valid reading for the room clears its sensor fault: any
    run of messages none of which is a valid reading addressed to [r]
    leaves [sensor_error] of [r] set. *)
Theorem sensor_fault_cleared_only_by_valid_reading :
  forall py_float r msgs s,
    get r (sensor_error s) = Some true ->
    forallb (fun m => negb (addressed_to r m && is_valid_reading py_float m)) msgs
      = true ->
    get r (sensor_error (on_messages py_float msgs s)) = Some true.
Proof.
  intros py_float r msgs. unfold on_messages.
  induction msgs as [|m msgs IH]; intros s Hs Hall; simpl; [exact Hs|].
  simpl in Hall. apply andb_true_iff in Hall. destruct Hall as [Hm Hall].
  apply IH; [|exact Hall]. apply negb_true_iff in Hm.
  destruct (is_valid_reading py_float m) eqn:Hv.
  - rewrite andb_true_r in Hm.
    destruct (topic_room (topic m)) as [room|] eqn:Er.
    + assert (Ha : addressed_to room m = true)
        by (unfold addressed_to; rewrite Er; apply String.eqb_refl).
      destruct (on_message_valid py_float room m s Ha Hv) as (temp & _ & _ & ->).
      simpl. rewrite get_set_other; [exact Hs|].
      intros ->. congruence.
    + unfold on_message, on_message_except. now rewrite Er.
  - rewrite on_message_invalid by exact Hv. unfold on_message_except.
    destruct (topic_room (topic m)) as [room|]; [|exact Hs].
    destruct (get room (invalid_counts s)) as [c|]; [|exact Hs].
    destruct (c + 1 >=? Invalid_Data_Limit); simpl; [|exact Hs].
    destruct (string_dec r room) as [->|Hne].
    + apply get_set_same.
    + now rewrite get_set_other.
Qed.

Lemma sensor_fault_cleared_only_by_valid_reading_witness :
  get "room2"
    (sensor_error
       (on_messages decimal_float
          [reading "room1" "20"; reading "room2" "51"; reading "room2" "x";
           {| topic := "building"; payload := "20" |}]
          (set_sensor_error "room2" true init))) = Some true.
Proof.
  apply (sensor_fault_cleared_only_by_valid_reading decimal_float "room2");
    reflexivity.
Defined.

(** ** Topics and connection callbacks *)

Lemma split_on_segment sep a b :
  contains_char sep a = false ->
  split_on sep (a ++ String sep b) = a :: split_on sep b.
Proof.
  induction a as [|c a IH]; simpl.
  - intros _. now rewrite Ascii.eqb_refl.
  - intros H. apply orb_false_iff in H. destruct H as [Hc Ha].
    rewrite Hc, (IH Ha). reflexivity.
Qed.

(** No segment [split_on] returns contains the separator. *)
Lemma split_on_segments_clean sep s :
  Forall (fun seg => contains_char sep seg = false) (split_on sep s).
Proof.
  induction s as [|c s IH]; simpl.
  - repeat constructor.
  - destruct (Ascii.eqb c sep) eqn:E.
    + constructor; [reflexivity | exact IH].
    + destruct (split_on sep s) as [|h t].
      * repeat constructor. simpl. now rewrite E.
      * inversion IH as [|? ? Hh Ht]; subst. constructor; [|exact Ht].
        simpl. now rewrite E, Hh.
Qed.

Lemma topic_room_clean t r :
  topic_room t = Some r -> contains_char "/"%char r = false.
Proof.
  unfold topic_room. intros H. apply nth_error_In in H.
  pose proof (split_on_segments_clean "/"%char t) as Hall.
  rewrite Forall_forall in Hall. now apply Hall.
Qed.

Lemma topic_room_temperature_topic room :
  contains_char "/"%char room = false ->
  topic_room (temperature_topic room) = Some room.
Proof.
  intros H. unfold topic_room, temperature_topic.
  change ("building/" ++ room ++ "/temperature")
    with ("building" ++ String "/"%char (room ++ String "/"%char "temperature")).
  rewrite split_on_segment by reflexivity.
  now rewrite split_on_segment by exact H.
Qed.

(** X13.  Topic round trip: the room [on_message] reads back from the
    temperature topic built for a room is that room exactly when the room's
    name has no "/"; in general the room read from any topic has none. *)
Theorem temperature_topic_round_trip :
  forall room,
    (topic_room (temperature_topic room) = Some room <->
     contains_char "/"%char room = false) /\
    forall t r, topic_room t = Some r -> contains_char "/"%char r = false.
Proof.
  intros room. split; [split|].
  - apply topic_room_clean.
  - apply topic_room_temperature_topic.
  - apply topic_room_clean.
Qed.

Lemma reconnect_loop_first_success reconnects k :
  reconnects k = true ->
  forall n fuel,
    (n <= k)%nat -> (forall i, (n <= i < k)%nat -> reconnects i = false) ->
    (k - n < fuel)%nat ->
    reconnect_loop fuel reconnects n = Some (S k).
Proof.
  intros Hk n fuel. revert n. induction fuel as [|fuel IH]; intros n Hn Hf Hlt.
  - lia.
  - simpl. destruct (Nat.eq_dec n k) as [->|Hne].
    + now rewrite Hk.
    + rewrite (Hf n) by lia. apply IH; [lia | | lia].
      intros i Hi. apply Hf. lia.
Qed.

(** X14.  The reconnect loop of [on_disconnect] never gives up and stops at
    the first success: if call number [k] is the first that does not raise,
    the handler returns after exactly [k + 1] calls (given the iterations
    for it); if every call raises it never returns. *)
Theorem on_disconnect_returns_at_first_success :
  forall reconnects,
    (forall k fuel,
       (forall i, (i < k)%nat -> reconnects i = false) -> reconnects k = true ->
       (k < fuel)%nat ->
       on_disconnect fuel reconnects = Some (S k)) /\
    ((forall i, reconnects i = false) ->
     forall fuel, on_disconnect fuel reconnects = None).
Proof.
  intros reconnects. split.
  - intros k fuel Hf Hk Hlt. unfold on_disconnect.
    apply reconnect_loop_first_success; try lia; [exact Hk|].
    intros i Hi. apply Hf. lia.
  - intros Hall fuel. unfold on_disconnect. generalize 0%nat.
    induction fuel as [|fuel IH]; intros n; simpl; [reflexivity|].
    rewrite Hall. apply IH.
Qed.

Lemma on_disconnect_returns_at_first_success_witness :
  on_disconnect 10 (fun n => (2 <=? n)%nat) = Some 3%nat /\
  on_disconnect 10 (fun _ => false) = None.
Proof.
  split.
  - apply (on_disconnect_returns_at_first_success (fun n => (2 <=? n)%nat));
      [|reflexivity|lia].
    intros i Hi. apply Nat.leb_gt. exact Hi.
  - apply (on_disconnect_returns_at_first_success (fun _ => false)).
    reflexivity.
Defined.

(** ** Invariants of a running service *)

Lemma log_requests_fields qs s :
  let s' := log_requests qs s in
  temperatures s' = temperatures s /\ hvac_active s' = hvac_active s /\
  invalid_counts s' = invalid_counts s /\ sensor_error s' = sensor_error s /\
  api_error s' = api_error s.
Proof.
  revert s. induction qs as [|q qs IH]; intros s; simpl; [repeat split|].
  apply (IH (log_request q s)).
Qed.

Lemma poll_hvac_status_ingestion_fields backend room s :
  let s' := poll_hvac_status backend room s in
  temperatures s' = temperatures s /\ invalid_counts s' = invalid_counts s /\
  sensor_error s' = sensor_error s.
Proof.
  destruct (poll_attempts_fields backend API_Rerty_Limit room s)
    as (E1 & E2 & E3 & _).
  unfold poll_hvac_status. auto.
Qed.

Lemma on_message_keeps_consistent py_float msg s :
  counters_consistent s -> counters_consistent (on_message py_float msg s).
Proof.
  intros H. destruct (is_valid_reading py_float msg) eqn:Hv.
  - destruct (topic_room (topic msg)) as [room|] eqn:Er.
    + assert (Ha : addressed_to room msg = true)
        by (unfold addressed_to; rewrite Er; apply String.eqb_refl).
      destruct (on_message_valid py_float room msg s Ha Hv) as (temp & _ & _ & ->).
      intros r. simpl. destruct (string_dec r room) as [->|Hne].
      * rewrite !get_set_same. split; [lia | reflexivity].
      * rewrite !get_set_other by exact Hne. apply H.
    + unfold on_message, on_message_except. now rewrite Er.
  - rewrite on_message_invalid by exact Hv. unfold on_message_except.
    destruct (topic_room (topic msg)) as [room|]; [|exact H].
    destruct (get room (invalid_counts s)) as [c|] eqn:Ec; [|exact H].
    pose proof (H room) as Hroom. rewrite Ec in Hroom.
    destruct (get room (sensor_error s)) as [f|] eqn:Ef; [|contradiction].
    destruct Hroom as [Hpos Hf].
    intros r. destruct (c + 1 >=? Invalid_Data_Limit) eqn:E; simpl;
      (destruct (string_dec r room) as [->|Hne];
       [rewrite ?get_set_same | rewrite ?get_set_other by exact Hne; apply H]).
    + split; [lia | now rewrite E].
    + rewrite Ef. split; [lia|]. rewrite E, Hf.
      rewrite Z.geb_leb in E |- *. apply Z.leb_gt in E.
      apply Z.leb_gt. lia.
Qed.

Lemma init_counters_consistent : counters_consistent init.
Proof.
  intros r. unfold init. simpl.
  repeat (destruct (String.eqb r _); [split; [lia | reflexivity]|]).
  exact I.
Qed.

(** X15.  Counter and flag agree in every state the service can reach from
    construction, under any messages, polls and passes: a room has a counter
    exactly if it has a sensor flag, the counter is never negative, and the
    flag is set exactly when the counter has reached
    [Invalid_Data_Limit]. *)
Theorem counters_and_flags_agree :
  forall py_float backend events,
    counters_consistent (run_events py_float backend events init).
Proof.
  intros py_float backend events. unfold run_events.
  generalize init_counters_consistent. generalize init.
  induction events as [|e events IH]; intros s H; simpl; [exact H|].
  apply IH. destruct e as [msg|room|]; simpl.
  - now apply on_message_keeps_consistent.
  - destruct (poll_hvac_status_ingestion_fields backend room s) as (_ & E2 & E3).
    intros r. rewrite E2, E3. apply H.
  - destruct (for_items_fields backend (temperatures s) s) as (_ & E2 & E3).
    intros r. unfold control_cycle. rewrite E2, E3. apply H.
Qed.

Lemma mem_of_get {V : Type} k (d : dict V) v : get k d = Some v -> mem k d = true.
Proof. unfold mem. now intros ->. Qed.

(** The loop body assigns only at keys it has just read. *)
Lemma loop_body_keys backend room temp s :
  let s' := state_of (loop_body backend room temp s) in
  keys (hvac_active s') = keys (hvac_active s) /\
  keys (api_error s') = keys (api_error s).
Proof.
  unfold loop_body.
  destruct (get room (sensor_error s)) as [[|]|]; try (split; reflexivity).
  destruct (get room (api_error s)) as [[|]|] eqn:Ea; try (split; reflexivity).
  destruct (get room (hvac_active s)) as [active|] eqn:Eh; try (split; reflexivity).
  apply mem_of_get in Ea, Eh.
  assert (Hsend : forall b,
            keys (hvac_active (set_hvac_active room (Some b)
                                 (send_hvac_command backend room b s)))
            = keys (hvac_active s) /\
            keys (api_error (set_hvac_active room (Some b)
                               (send_hvac_command backend room b s)))
            = keys (api_error s)).
  { intros b.
    destruct (send_hvac_command_fields backend room b s)
      as (_ & Fh & _ & _ & (b' & Fa)).
    cbn [set_hvac_active hvac_active api_error]. rewrite Fh, Fa.
    now rewrite !keys_set_present by assumption. }
  destruct (should_activate temp && is_not true active); cbn [state_of]; auto.
  destruct (negb (should_activate temp) && is_not false active);
    cbn [state_of]; auto.
Qed.

Lemma control_cycle_keys backend s :
  let s' := state_of (control_cycle backend s) in
  keys (hvac_active s') = keys (hvac_active s) /\
  keys (api_error s') = keys (api_error s).
Proof.
  unfold control_cycle. generalize (temperatures s). intros items. revert s.
  induction items as [|[room temp] items IH]; intros s; simpl; [auto|].
  pose proof (loop_body_keys backend room temp s) as Hb.
  destruct (loop_body backend room temp s) as [s1|s1]; simpl in *; [|exact Hb].
  destruct Hb as [E1 E2]. destruct (IH s1) as [F1 F2].
  rewrite F1, F2. auto.
Qed.

Lemma poll_hvac_status_keys backend room s :
  mem room (hvac_active s) = true -> mem room (api_error s) = true ->
  let s' := poll_hvac_status backend room s in
  keys (hvac_active s') = keys (hvac_active s) /\
  keys (api_error s') = keys (api_error s).
Proof.
  intros Hh Ha. cbv zeta. unfold poll_hvac_status.
  rewrite poll_attempts_by_replies.
  set (logged := log_requests _ s).
  destruct (log_requests_fields
              (repeat (GET_status room)
                 (attempts_made is_request_exception
                    (replies backend API_Rerty_Limit s))) s)
    as (_ & Lh & _ & _ & La).
  fold logged in Lh, La.
  destruct (first_final _ _) as [[status| |]|]; simpl; rewrite ?Lh, ?La;
    now rewrite ?keys_set_present by assumption.
Qed.

Lemma on_message_tracked_keys py_float r msg s :
  addressed_to r msg = true ->
  mem r (temperatures s) = true -> mem r (invalid_counts s) = true ->
  mem r (sensor_error s) = true ->
  let s' := on_message py_float msg s in
  keys (temperatures s') = keys (temperatures s) /\
  keys (invalid_counts s') = keys (invalid_counts s) /\
  keys (sensor_error s') = keys (sensor_error s).
Proof.
  intros Ha Ht Hc Hs. cbv zeta.
  destruct (is_valid_reading py_float msg) eqn:Hv.
  - destruct (on_message_valid py_float r msg s Ha Hv) as (temp & _ & _ & ->).
    simpl. now rewrite !keys_set_present by assumption.
  - rewrite on_message_invalid by exact Hv.
    apply addressed_to_room in Ha. unfold on_message_except. rewrite Ha.
    unfold mem in Hc. destruct (get r (invalid_counts s)) as [c|] eqn:Ec;
      [|discriminate].
    apply mem_of_get in Ec.
    destruct (c + 1 >=? Invalid_Data_Limit); simpl;
      now rewrite !keys_set_present by assumption.
Qed.

(** A message on a subscribed topic is addressed to a configured room. *)
Lemma subscribed_topic_room msg :
  existsb (String.eqb (topic msg)) (on_connect 0) = true ->
  exists r, In r ROOMS /\ addressed_to r msg = true.
Proof.
  intros H. apply existsb_exists in H. destruct H as (t & Hin & E).
  apply String.eqb_eq in E. change (on_connect 0) with Temp_Topics in Hin.
  unfold Temp_Topics in Hin. apply in_map_iff in Hin.
  destruct Hin as (r & <- & Hr). exists r. split; [exact Hr|].
  unfold addressed_to. rewrite E, topic_room_temperature_topic.
  - apply String.eqb_refl.
  - simpl in Hr. repeat (destruct Hr as [<-|Hr]; [reflexivity|]). destruct Hr.
Qed.

(** X16.  The rooms stay the configured ones.  From construction, under any
    backend, any messages on the topics [on_connect] subscribes to, any
    polls of configured rooms and any passes, in whatever order, each of
    the five dictionaries keeps exactly the keys [ROOMS] in that order, and
    no pass stops on a [KeyError]. *)
Theorem configured_rooms_stay_the_tracked_rooms :
  forall py_float backend events,
    forallb configured_event events = true ->
    let s := run_events py_float backend events init in
    (keys (temperatures s) = ROOMS /\ keys (hvac_active s) = ROOMS /\
     keys (invalid_counts s) = ROOMS /\ keys (sensor_error s) = ROOMS /\
     keys (api_error s) = ROOMS) /\
    raised (control_cycle backend s) = false.
Proof.
  intros py_float backend events Hev. cbv zeta.
  assert (Hkeys : let s := run_events py_float backend events init in
            keys (temperatures s) = ROOMS /\ keys (hvac_active s) = ROOMS /\
            keys (invalid_counts s) = ROOMS /\ keys (sensor_error s) = ROOMS /\
            keys (api_error s) = ROOMS).
  { cbv zeta. unfold run_events.
    assert (H0 : keys (temperatures init) = ROOMS /\ keys (hvac_active init) = ROOMS /\
                 keys (invalid_counts init) = ROOMS /\ keys (sensor_error init) = ROOMS /\
                 keys (api_error init) = ROOMS) by (repeat split).
    revert H0 Hev. generalize init.
    induction events as [|e events IH]; intros s H Hev; simpl; [exact H|].
    simpl in Hev. apply andb_true_iff in Hev. destruct Hev as [He Hev].
    apply IH; [|exact Hev]. destruct H as (K1 & K2 & K3 & K4 & K5).
    destruct e as [msg|room|]; cbn [step configured_event] in *.
    - destruct (subscribed_topic_room msg He) as (r & Hr & Ha).
      destruct (on_message_tracked_keys py_float r msg s Ha) as (E1 & E3 & E4);
        try (apply mem_keys; congruence).
      destruct (on_message_keeps_backend_state py_float msg s) as (E5 & E2 & _).
      rewrite E1, E2, E3, E4, E5. auto.
    - apply existsb_exists in He. destruct He as (r & Hr & E).
      apply String.eqb_eq in E. subst r.
      destruct (poll_hvac_status_keys backend room s) as (E2 & E5);
        try (apply mem_keys; congruence).
      destruct (poll_hvac_status_ingestion_fields backend room s) as (E1 & E3 & E4).
      rewrite E1, E2, E3, E4, E5. auto.
    - destruct (control_cycle_keys backend s) as (E2 & E5).
      destruct (for_items_fields backend (temperatures s) s) as (E1 & E3 & E4).
      unfold control_cycle in *. rewrite E1, E2, E3, E4, E5. auto. }
  split; [exact Hkeys|]. cbv zeta in Hkeys.
  destruct Hkeys as (K1 & K2 & K3 & K4 & K5).
  set (s := run_events py_float backend events init) in *.
  unfold control_cycle.
  destruct (for_items_done backend (keys (temperatures s)) (temperatures s) s)
    as [s' ->]; [|apply incl_refl|reflexivity].
  unfold tracked. apply forallb_forall. intros k Hk.
  assert (mem k (sensor_error s) = true) as -> by (apply mem_keys; congruence).
  assert (mem k (api_error s) = true) as -> by (apply mem_keys; congruence).
  assert (mem k (hvac_active s) = true) as -> by (apply mem_keys; congruence).
  reflexivity.
Qed.

Lemma configured_rooms_stay_the_tracked_rooms_witness :
  let s := run_events decimal_float backend_recovers
             [Deliver (reading "room4" "33.3"); Poll "room1"; Poll "room4";
              Deliver (reading "room2" "garbled"); Pass;
              Deliver (reading "room4" "12"); Pass] init in
  (keys (temperatures s) = ROOMS /\ keys (hvac_active s) = ROOMS /\
   keys (invalid_counts s) = ROOMS /\ keys (sensor_error s) = ROOMS /\
   keys (api_error s) = ROOMS) /\
  raised (control_cycle backend_recovers s) = false.
Proof.
  apply (configured_rooms_stay_the_tracked_rooms decimal_float backend_recovers).
  reflexivity.
Defined.

(** * The mock legacy API *)

Lemma set_set {V : Type} k (v1 v2 : V) d : set k v2 (set k v1 d) = set k v2 d.
Proof.
  induction d as [|[k' v'] d IH]; simpl.
  - now rewrite String.eqb_refl.
  - destruct (String.eqb k k') eqn:E; simpl; rewrite E; [reflexivity|].
    now rewrite IH.
Qed.

Lemma command_view_accepted room req rs :
  mem room rs = true ->
  forall members c,
    MockApi.get_json req = MockApi.JObject members ->
    get "command" members = Some c ->
    MockApi.json_is c "activate" || MockApi.json_is c "deactivate" = true ->
    let status := if MockApi.json_is c "activate" then "active" else "inactive" in
    MockApi.command_view room req rs =
    MockApi.Returns (set room status rs)
      (MockApi.Json [("room", MockApi.JString room);
                     ("status", MockApi.JString status)] 200).
Proof.
  intros Hm members c Ej Ec Hc. cbv zeta. unfold MockApi.command_view.
  rewrite Hm, Ej. simpl.
  assert (Ht : match members with [] => false | _ :: _ => true end = true).
  { destruct members; [discriminate | reflexivity]. }
  rewrite Ht. unfold mem. rewrite Ec, Hc. simpl. now rewrite get_set_same.
Qed.

Lemma command_view_rejected room req rs :
  accepted_command room req rs = false ->
  (exists u p, MockApi.authorization req = Some (u, p) /\
               MockApi.check_auth u p = true) ->
  MockApi.status_after (MockApi.command_view room req rs) = rs /\
  forall rs' r, MockApi.command_view room req rs = MockApi.Returns rs' r ->
                MockApi.status_code r <> 200.
Proof.
  intros Hacc (u & p & Ea & Hc). unfold accepted_command in Hacc.
  rewrite Ea, Hc in Hacc. simpl in Hacc. unfold MockApi.command_view.
  destruct (mem room rs); simpl in *.
  2:{ split; [reflexivity|]. intros rs' r [= <- <-]. discriminate. }
  destruct (MockApi.get_json req) as [|b|n|x|str|items|members];
    [simpl | simpl | simpl | simpl | simpl | simpl | ].
  - split; [reflexivity|]. intros rs' r [= <- <-]. discriminate.
  - destruct b; simpl; split; try reflexivity; intros rs' r; try discriminate;
      intros [= <- <-]; discriminate.
  - destruct (n =? 0); simpl; split; try reflexivity; intros rs' r;
      try discriminate; intros [= <- <-]; discriminate.
  - destruct (PrimFloat.eqb x 0); simpl; split; try reflexivity; intros rs' r;
      try discriminate; intros [= <- <-]; discriminate.
  - destruct (String.eqb str ""); simpl; [|destruct (MockApi.contains _ str)];
      split; try reflexivity; intros rs' r; try discriminate;
      intros [= <- <-]; discriminate.
  - destruct items as [|i items]; [|destruct (existsb _ (i :: items))];
      split; try reflexivity; intros rs' r; try discriminate;
      intros [= <- <-]; discriminate.
  - destruct members as [|m members].
    { split; [reflexivity|]. intros rs' r [= <- <-]. discriminate. }
    cbn [MockApi.truthy MockApi.has_command MockApi.command_of negb].
    unfold mem. destruct (get "command" (m :: members)) as [c|].
    + rewrite Hacc. cbn [negb MockApi.status_after]. split; [reflexivity|].
      intros rs' r [= <- <-]. discriminate.
    + split; [reflexivity|]. intros rs' r [= <- <-]. discriminate.
Qed.

(** X18.  The decorator lets a request through exactly when both
    credentials are the expected ones: any other request (no
    [Authorization], a missing or wrong user name or password) gets the 401
    on both endpoints and leaves [room_status] as it was; a request with
    the right pair never gets the 401. *)
Theorem only_right_credentials_pass :
  forall room req rs,
    let expected := Some (Some MockApi.HVAC_API_USER, Some MockApi.HVAC_API_PASS) in
    (MockApi.authorization req <> expected ->
     MockApi.get_status room req rs = MockApi.Returns rs MockApi.Unauthorized /\
     MockApi.command room req rs = MockApi.Returns rs MockApi.Unauthorized) /\
    (MockApi.authorization req = expected ->
     MockApi.get_status room req rs = MockApi.get_status_view room req rs /\
     MockApi.command room req rs = MockApi.command_view room req rs).
Proof.
  intros room req rs expected. subst expected.
  unfold MockApi.get_status, MockApi.command, MockApi.requires_auth,
    MockApi.authenticate. split.
  - intros Hne. destruct (MockApi.authorization req) as [[u p]|]; [|now split].
    destruct (MockApi.check_auth u p) eqn:Hc; simpl; [|now split].
    exfalso. apply Hne. unfold MockApi.check_auth, MockApi.eq_str in Hc.
    destruct u as [u|], p as [p|]; simpl in Hc; try discriminate;
      try (rewrite andb_false_r in Hc; discriminate).
    apply andb_true_iff in Hc. destruct Hc as [Hu Hp].
    apply String.eqb_eq in Hu, Hp. now subst.
  - intros ->. now split.
Qed.

Lemma only_right_credentials_pass_witness :
  let req := {| MockApi.authorization := Some (Some "apiuser", Some "apipassw0rd");
                MockApi.get_json := MockApi.JObject
                                      [("command", MockApi.JString "activate")] |} in
  MockApi.get_status "room1" req MockApi.room_status
  = MockApi.Returns MockApi.room_status MockApi.Unauthorized /\
  MockApi.command "room1" req MockApi.room_status
  = MockApi.Returns MockApi.room_status MockApi.Unauthorized.
Proof.
  apply only_right_credentials_pass. discriminate.
Defined.

Lemma accepted_command_inv room req rs :
  accepted_command room req rs = true ->
  MockApi.authorization req
  = Some (Some MockApi.HVAC_API_USER, Some MockApi.HVAC_API_PASS) /\
  mem room rs = true /\
  exists members c,
    MockApi.get_json req = MockApi.JObject members /\
    get "command" members = Some c /\
    MockApi.json_is c "activate" || MockApi.json_is c "deactivate" = true.
Proof.
  unfold accepted_command. intros H.
  apply andb_true_iff in H. destruct H as [H H3].
  apply andb_true_iff in H. destruct H as [H1 H2].
  split; [|split; [exact H2|]].
  - destruct (MockApi.authorization req) as [[u p]|]; [|discriminate].
    unfold MockApi.check_auth, MockApi.eq_str in H1.
    destruct u as [u|], p as [p|]; simpl in H1; try discriminate;
      try (rewrite andb_false_r in H1; discriminate).
    apply andb_true_iff in H1. destruct H1 as [Hu Hp].
    apply String.eqb_eq in Hu, Hp. now subst.
  - destruct (MockApi.get_json req) as [| | | | | |members]; try discriminate.
    destruct (get "command" members) as [c|] eqn:Ec; [|discriminate].
    now exists members, c.
Qed.

Lemma command_accepted room req rs :
  accepted_command room req rs = true ->
  exists status,
    (status = "active" \/ status = "inactive") /\
    MockApi.command room req rs =
    MockApi.Returns (set room status rs)
      (MockApi.Json [("room", MockApi.JString room);
                     ("status", MockApi.JString status)] 200).
Proof.
  intros H. destruct (accepted_command_inv room req rs H)
    as (Ea & Hm & members & c & Ej & Ec & Hc).
  exists (if MockApi.json_is c "activate" then "active" else "inactive").
  split; [destruct (MockApi.json_is c "activate"); auto|].
  unfold MockApi.command, MockApi.requires_auth. rewrite Ea. simpl.
  now apply (command_view_accepted room req rs Hm members c).
Qed.

Lemma command_rejected room req rs :
  accepted_command room req rs = false ->
  MockApi.status_after (MockApi.command room req rs) = rs /\
  forall rs' r, MockApi.command room req rs = MockApi.Returns rs' r ->
                MockApi.status_code r <> 200.
Proof.
  intros H. unfold MockApi.command, MockApi.requires_auth.
  destruct (MockApi.authorization req) as [[u p]|] eqn:Ea.
  - destruct (MockApi.check_auth u p) eqn:Hc; simpl.
    + apply command_view_rejected; [exact H|]. now exists u, p.
    + split; [reflexivity|]. intros rs' r [= <- <-]. discriminate.
  - split; [reflexivity|]. intros rs' r [= <- <-]. discriminate.
Qed.

(** X19.  The command endpoint answers 200 exactly for a request with the
    right credentials, a known room and a JSON object whose "command" is
    "activate" or "deactivate": it then assigns "active" or "inactive"
    accordingly to the room (which may be the status the room already had)
    and echoes it.  Every other request gets no 200 and leaves
    [room_status] as it was, so [room_status] changes only with a 200. *)
Theorem command_applies_exactly_accepted_requests :
  forall room req rs,
    (accepted_command room req rs = true ->
     exists c,
       MockApi.command_of (MockApi.get_json req) = Some c /\
       let status := if MockApi.json_is c "activate" then "active" else "inactive" in
       MockApi.command room req rs =
       MockApi.Returns (set room status rs)
         (MockApi.Json [("room", MockApi.JString room);
                        ("status", MockApi.JString status)] 200)) /\
    (accepted_command room req rs = false ->
     MockApi.status_after (MockApi.command room req rs) = rs /\
     forall rs' r, MockApi.command room req rs = MockApi.Returns rs' r ->
                   MockApi.status_code r <> 200).
Proof.
  intros room req rs. split.
  - intros H. destruct (accepted_command_inv room req rs H)
      as (Ea & Hm & members & c & Ej & Ec & Hc).
    exists c. rewrite Ej. split; [exact Ec|]. cbv zeta.
    unfold MockApi.command, MockApi.requires_auth. rewrite Ea. simpl.
    now apply (command_view_accepted room req rs Hm members c).
  - apply command_rejected.
Qed.

Lemma command_applies_exactly_accepted_requests_witness :
  (exists c,
     MockApi.command_of (MockApi.get_json (command_request "activate")) = Some c /\
     let status := if MockApi.json_is c "activate" then "active" else "inactive" in
     MockApi.command "room2" (command_request "activate") MockApi.room_status =
     MockApi.Returns (set "room2" status MockApi.room_status)
       (MockApi.Json [("room", MockApi.JString "room2");
                      ("status", MockApi.JString status)] 200)) /\
  MockApi.status_after
    (MockApi.command "room2" (command_request "start") MockApi.room_status)
  = MockApi.room_status.
Proof.
  split.
  - apply command_applies_exactly_accepted_requests. reflexivity.
  - apply command_applies_exactly_accepted_requests. reflexivity.
Defined.

(** X20.  The API never adds or removes a room: whatever the request, the
    keys of [room_status] after the command endpoint are the keys before,
    in the same order, and a command for a room that is not among them is
    answered 404 when it passes the decorator.  (The status endpoint
    returns [room_status] untouched.) *)
Theorem api_rooms_are_fixed :
  forall room req rs,
    keys (MockApi.status_after (MockApi.command room req rs)) = keys rs /\
    MockApi.status_after (MockApi.get_status room req rs) = rs /\
    (mem room rs = false ->
     MockApi.authorization req
     = Some (Some MockApi.HVAC_API_USER, Some MockApi.HVAC_API_PASS) ->
     MockApi.command room req rs =
     MockApi.Returns rs (MockApi.Json [("error", MockApi.JString "Room not found")] 404) /\
     MockApi.get_status room req rs =
     MockApi.Returns rs (MockApi.Json [("error", MockApi.JString "Room not found")] 404)).
Proof.
  intros room req rs. split; [|split].
  - destruct (accepted_command room req rs) eqn:H.
    + destruct (accepted_command_inv room req rs H) as (_ & Hm & _).
      destruct (command_accepted room req rs H) as (status & _ & ->).
      simpl. now apply keys_set_present.
    + destruct (command_rejected room req rs H) as [-> _]. reflexivity.
  - unfold MockApi.get_status, MockApi.requires_auth, MockApi.get_status_view.
    destruct (MockApi.authorization req) as [[u p]|]; [|reflexivity].
    destruct (MockApi.check_auth u p); simpl; [|reflexivity].
    now destruct (get room rs).
  - intros Hm Ha.
    unfold MockApi.command, MockApi.get_status, MockApi.requires_auth.
    rewrite Ha. simpl. unfold MockApi.command_view, MockApi.get_status_view.
    rewrite Hm. unfold mem in Hm. now destruct (get room rs).
Qed.

Lemma api_rooms_are_fixed_witness :
  MockApi.command "room9" (command_request "activate") MockApi.room_status =
  MockApi.Returns MockApi.room_status
    (MockApi.Json [("error", MockApi.JString "Room not found")] 404) /\
  MockApi.get_status "room9" (command_request "activate") MockApi.room_status =
  MockApi.Returns MockApi.room_status
    (MockApi.Json [("error", MockApi.JString "Room not found")] 404).
Proof.
  apply (api_rooms_are_fixed "room9"); reflexivity.
Defined.

(** X21.  Middleware and API agree.  For a room the API knows, the POST
    [send_hvac_command] makes for [activate] is accepted with a 200, and
    the status the API then reports to the GET of [poll_hvac_status] is
    read back by [status == "active"] as [activate]. *)
Theorem command_then_poll_round_trip :
  forall room (activate : bool) rs,
    mem room rs = true ->
    let command := if activate then "activate" else "deactivate" in
    exists rs' r1 r2,
      MockApi.command room (command_request command) rs = MockApi.Returns rs' r1 /\
      MockApi.status_code r1 = 200 /\
      MockApi.get_status room status_request rs' = MockApi.Returns rs' r2 /\
      MockApi.status_code r2 = 200 /\
      status_is_active (status_field r2) = activate.
Proof.
  intros room activate rs Hm command. subst command.
  assert (Hacc : accepted_command room
                   (command_request (if activate then "activate" else "deactivate"))
                   rs = true).
  { unfold accepted_command. simpl. rewrite Hm. now destruct activate. }
  destruct (accepted_command_inv _ _ _ Hacc) as (Ea & _ & members & c & Ej & Ec & Hc).
  pose proof (command_view_accepted room _ rs Hm members c Ej Ec Hc) as Hcmd.
  simpl in Ej. injection Ej as <-. simpl in Ec. injection Ec as <-.
  cbv zeta in Hcmd.
  eexists _, _, _. split; [|split; [|split; [|split]]].
  - unfold MockApi.command, MockApi.requires_auth. rewrite Ea. simpl. exact Hcmd.
  - reflexivity.
  - unfold MockApi.get_status, MockApi.requires_auth, MockApi.get_status_view.
    simpl. rewrite get_set_same. reflexivity.
  - reflexivity.
  - now destruct activate.
Qed.

Lemma command_then_poll_round_trip_witness :
  exists rs' r1 r2,
    MockApi.command "room5" (command_request "activate") MockApi.room_status
    = MockApi.Returns rs' r1 /\
    MockApi.status_code r1 = 200 /\
    MockApi.get_status "room5" status_request rs' = MockApi.Returns rs' r2 /\
    MockApi.status_code r2 = 200 /\
    status_is_active (status_field r2) = true.
Proof.
  apply (command_then_poll_round_trip "room5" true MockApi.room_status).
  reflexivity.
Defined.

(** X22.  Last write wins: after an accepted command for a room,
    [room_status] is the same whatever command request was served for that
    room just before, accepted or not; in particular repeating an accepted
    command changes nothing more. *)
Theorem last_accepted_command_wins :
  forall room req1 req2 rs,
    accepted_command room req2 rs = true ->
    MockApi.status_after
      (MockApi.command room req2
         (MockApi.status_after (MockApi.command room req1 rs)))
    = MockApi.status_after (MockApi.command room req2 rs).
Proof.
  intros room req1 req2 rs H2.
  destruct (accepted_command room req1 rs) eqn:H1.
  - destruct (accepted_command_inv room req2 rs H2)
      as (Ea & Hm & members & c & Ej & Ec & Hc).
    destruct (command_accepted room req1 rs H1) as (st1 & _ & ->).
    cbn [MockApi.status_after].
    unfold MockApi.command, MockApi.requires_auth. rewrite Ea. simpl.
    rewrite (command_view_accepted room req2 rs Hm members c Ej Ec Hc).
    rewrite (command_view_accepted room req2 (set room st1 rs)
               (mem_set_same _ _ _) members c Ej Ec Hc).
    simpl. apply set_set.
  - destruct (command_rejected room req1 rs H1) as [-> _]. reflexivity.
Qed.

Lemma last_accepted_command_wins_witness :
  MockApi.status_after
    (MockApi.command "room1" (command_request "deactivate")
       (MockApi.status_after
          (MockApi.command "room1" (command_request "activate") MockApi.room_status)))
  = MockApi.status_after
      (MockApi.command "room1" (command_request "deactivate") MockApi.room_status).
Proof.
  apply last_accepted_command_wins. reflexivity.
Defined.

(** X23.  A command request for one room, whatever it is, leaves the
    status of every other room as it was. *)
Theorem command_touches_one_room :
  forall room other req rs,
    other <> room ->
    get other (MockApi.status_after (MockApi.command room req rs)) = get other rs.
Proof.
  intros room other req rs Hne.
  destruct (accepted_command room req rs) eqn:H.
  - destruct (command_accepted room req rs H) as (status & _ & ->).
    simpl. now apply get_set_other.
  - destruct (command_rejected room req rs H) as [-> _]. reflexivity.
Qed.

Lemma command_touches_one_room_witness :
  get "room2"
    (MockApi.status_after
       (MockApi.command "room1" (command_request "activate") MockApi.room_status))
  = get "room2" MockApi.room_status.
Proof.
  apply command_touches_one_room. discriminate.
Defined.

(** X24.  Whatever command requests the API has served since it started,
    [room_status] holds exactly the five rooms and each is "active" or
    "inactive", so the middleware's [status == "active"] loses nothing. *)
Theorem api_status_is_always_active_or_inactive :
  forall calls,
    let rs := serve_commands calls MockApi.room_status in
    keys rs = ROOMS /\
    forall room status,
      get room rs = Some status -> status = "active" \/ status = "inactive".
Proof.
  intros calls. cbv zeta. unfold serve_commands.
  assert (H0 : keys MockApi.room_status = ROOMS /\
               forall room status,
                 get room MockApi.room_status = Some status ->
                 status = "active" \/ status = "inactive").
  { split; [reflexivity|]. intros room status. simpl.
    repeat (destruct (String.eqb room _); [intros [= <-]; now right|]).
    discriminate. }
  revert H0. generalize MockApi.room_status.
  induction calls as [|[room req] calls IH]; intros rs H; simpl; [exact H|].
  apply IH. destruct H as [Hk Hd].
  destruct (accepted_command room req rs) eqn:Hacc.
  - destruct (accepted_command_inv room req rs Hacc) as (_ & Hm & _).
    destruct (command_accepted room req rs Hacc) as (st & Hst & ->). simpl.
    split; [now rewrite keys_set_present|].
    intros r status. destruct (string_dec r room) as [->|Hne].
    + rewrite get_set_same. now intros [= <-].
    + rewrite get_set_other by exact Hne. apply Hd.
  - destruct (command_rejected room req rs Hacc) as [-> _]. now split.
Qed.

(** X25.  The command handler raises instead of answering 400 exactly when
    a request with the right credentials for a known room carries a body
    that is truthy but no object and on which the membership test or the
    subscript fails: [true], a non-zero number, an array with the item
    "command", a string containing "command".  [room_status] is unchanged
    then. *)
Theorem command_raises_exactly_on_raising_bodies :
  forall room req rs,
    ((exists rs', MockApi.command room req rs = MockApi.Raises rs') <->
     (MockApi.authorization req
      = Some (Some MockApi.HVAC_API_USER, Some MockApi.HVAC_API_PASS) /\
      mem room rs = true /\ raising_body (MockApi.get_json req) = true)) /\
    forall rs', MockApi.command room req rs = MockApi.Raises rs' -> rs' = rs.
Proof.
  intros room req rs.
  assert (Hview : mem room rs = true ->
            (raising_body (MockApi.get_json req) = true ->
             MockApi.command_view room req rs = MockApi.Raises rs) /\
            (forall rs', MockApi.command_view room req rs = MockApi.Raises rs' ->
                         raising_body (MockApi.get_json req) = true /\ rs' = rs)).
  { intros Hm. unfold MockApi.command_view, raising_body. rewrite Hm.
    cbn [negb].
    destruct (MockApi.get_json req) as [|b|n|x|str|items|members].
    - split; [discriminate | intros rs'; discriminate].
    - destruct b; cbn; split; try discriminate; try reflexivity;
        intros rs'; try discriminate; now intros [= <-].
    - cbn. destruct (n =? 0); cbn; split; try discriminate; try reflexivity;
        intros rs'; try discriminate; now intros [= <-].
    - cbn. destruct (PrimFloat.eqb x 0); cbn; split; try discriminate;
        try reflexivity; intros rs'; try discriminate; now intros [= <-].
    - cbn [MockApi.truthy MockApi.has_command MockApi.command_of].
      destruct (negb (String.eqb str "")); cbn [negb andb];
        [|split; [discriminate | intros rs'; discriminate]].
      destruct (MockApi.contains "command" str); split; try discriminate;
        try reflexivity; intros rs'; try discriminate; now intros [= <-].
    - cbn [MockApi.truthy MockApi.has_command MockApi.command_of].
      destruct items as [|i items]; cbn [negb andb];
        [split; [discriminate | intros rs'; discriminate]|].
      destruct (existsb _ (i :: items)); split; try discriminate;
        try reflexivity; intros rs'; try discriminate; now intros [= <-].
    - cbn [MockApi.truthy MockApi.has_command MockApi.command_of].
      rewrite andb_false_r. split; [discriminate|]. intros rs'.
      destruct members as [|m members]; [discriminate|]. cbn [negb].
      unfold mem. destruct (get "command" (m :: members)) as [c|];
        [|discriminate].
      destruct (negb (MockApi.json_is c "activate" || MockApi.json_is c "deactivate"));
        [discriminate|].
      rewrite get_set_same. discriminate. }
  assert (Hauth : forall u p,
            MockApi.check_auth u p = true ->
            Some (u, p) = Some (Some MockApi.HVAC_API_USER, Some MockApi.HVAC_API_PASS)).
  { intros u p Hc. unfold MockApi.check_auth, MockApi.eq_str in Hc.
    destruct u as [u|], p as [p|]; simpl in Hc; try discriminate;
      try (rewrite andb_false_r in Hc; discriminate).
    apply andb_true_iff in Hc. destruct Hc as [Hu Hp].
    apply String.eqb_eq in Hu, Hp. now subst. }
  unfold MockApi.command, MockApi.requires_auth.
  split; [split|].
  - intros [rs' H].
    destruct (MockApi.authorization req) as [[u p]|]; [|discriminate].
    destruct (MockApi.check_auth u p) eqn:Hc; simpl in H; [|discriminate].
    split; [now apply Hauth|].
    destruct (mem room rs) eqn:Hm.
    + split; [reflexivity|]. now apply (proj2 (Hview eq_refl) rs').
    + unfold MockApi.command_view in H. rewrite Hm in H. discriminate.
  - intros (Ea & Hm & Hr). rewrite Ea. simpl. exists rs.
    now apply (proj1 (Hview Hm)).
  - intros rs' H.
    destruct (MockApi.authorization req) as [[u p]|]; [|discriminate].
    destruct (MockApi.check_auth u p); simpl in H; [|discriminate].
    destruct (mem room rs) eqn:Hm.
    + now apply (proj2 (Hview eq_refl) rs').
    + unfold MockApi.command_view in H. rewrite Hm in H. discriminate.
Qed.

Lemma command_raises_exactly_on_raising_bodies_witness :
  let req := {| MockApi.authorization := Some (Some "apiuser", Some "apipassword");
                MockApi.get_json := MockApi.JArray [MockApi.JString "command"] |} in
  exists rs', MockApi.command "room1" req MockApi.room_status = MockApi.Raises rs'.
Proof.
  apply command_raises_exactly_on_raising_bodies. repeat split.
Defined.

Lemma api_status_is_always_active_or_inactive_witness :
  let rs := serve_commands
              [("room3", command_request "activate"); ("room9", command_request "activate");
               ("room4", command_request "reboot")] MockApi.room_status in
  "active" = "active" \/ "active" = "inactive".
Proof.
  intros rs.
  apply (proj2 (api_status_is_always_active_or_inactive
                  [("room3", command_request "activate");
                   ("room9", command_request "activate");
                   ("room4", command_request "reboot")]) "room3" "active").
  reflexivity.
Defined.

Lemma temperature_topic_round_trip_witness :
  topic_room (temperature_topic "room3") = Some "room3" /\
  contains_char "/"%char "attic" = false.
Proof.
  split.
  - apply (proj1 (temperature_topic_round_trip "room3")). reflexivity.
  - apply (proj2 (temperature_topic_round_trip "room3") "building/attic/temperature").
    reflexivity.
Defined.
